(** * The [Business] model of the legal-api and the dissolution validator

    A shallow embedding of
    - [legal_api/models/business.py]: identifier validation and assignment,
      the annual-report date window, good standing, [save] and [delete];
    - [legal_api/services/filings/validations/dissolution.py]: [validate].

    Python values are embedded as follows.  Integers are [Z].  A [str] is a
    [string] whose characters are code points below 256.  A nullable column
    is an [option].  A call that may raise returns a [result]; a method that
    assigns to [self], reads the clock or talks to the database session is a
    state-passing function in the monad [M]. *)

From Stdlib Require Import ZArith List String Ascii Bool Lia.
From Stdlib Require DecimalString.
Import ListNotations.

Local Open Scope string_scope.
Local Open Scope Z_scope.

(** ** Exceptions, results, and the state-and-exception monad *)

Inductive exn : Type :=
| ValueError
| OverflowError
| TypeError
| AttributeError
| BusinessException (error : string) (status_code : Z).

Inductive result (A : Type) : Type :=
| Ok (a : A)
| Raise (e : exn).

Arguments Ok {A} a.
Arguments Raise {A} e.

(** The value a call returned, if it returned. *)
Definition returned {A : Type} (r : result A) : option A :=
  match r with
  | Ok a => Some a
  | Raise _ => None
  end.

Definition raises {A : Type} (r : result A) : Prop :=
  exists e, r = Raise e.

Definition rbind {A B : Type} (r : result A) (k : A -> result B) : result B :=
  match r with
  | Ok a => k a
  | Raise e => Raise e
  end.

(** A computation over a mutable state [S].  The state reached when an
    exception is raised is kept, as assignments made before a Python
    exception are. *)
Definition M (S A : Type) : Type := S -> result A * S.

Definition ret {S A : Type} (a : A) : M S A := fun s => (Ok a, s).

Definition raise {S A : Type} (e : exn) : M S A := fun s => (Raise e, s).

Definition bind {S A B : Type} (m : M S A) (k : A -> M S B) : M S B :=
  fun s =>
    match m s with
    | (Ok a, s') => k a s'
    | (Raise e, s') => (Raise e, s')
    end.

Definition lift {S A : Type} (r : result A) : M S A := fun s => (r, s).

Definition get {S : Type} : M S S := fun s => (Ok s, s).

Definition put {S : Type} (s : S) : M S unit := fun _ => (Ok tt, s).

Declare Scope py_scope.
Delimit Scope py_scope with py.

Notation "x <- m ;; k" := (bind m (fun x => k))
  (at level 61, m at next level, right associativity) : py_scope.
Notation "' pat <- m ;; k" := (bind m (fun x => match x with pat => k end))
  (at level 61, pat pattern, m at next level, right associativity) : py_scope.
Notation "m ;;; k" := (bind m (fun _ => k))
  (at level 61, right associativity) : py_scope.

Notation "x <~ r ;; k" := (rbind r (fun x => k))
  (at level 61, r at next level, right associativity) : py_scope.

(** Python truthiness of a nullable column holding a [datetime], a model
    instance or a non-zero-sized object: [None] is the only falsy value. *)
Definition truthy {A : Type} (o : option A) : bool :=
  match o with
  | Some _ => true
  | None => false
  end.

(** [a or b] on two nullable values of that kind. *)
Definition py_or {A : Type} (a b : option A) : option A :=
  match a with
  | Some _ => a
  | None => b
  end.

(** ** The standard [datetime] module

    Follows the reference implementation of the standard library
    ([_is_leap], [_days_before_year], [_ymd2ord], [_ord2ymd],
    [_check_date_fields], [date.__add__], the rich comparisons). *)

Module PyDatetime.

Definition MINYEAR : Z := 1.
Definition MAXYEAR : Z := 9999.
Definition _MAXORDINAL : Z := 3652059.

Definition _is_leap (year : Z) : bool :=
  (year mod 4 =? 0) && (negb (year mod 100 =? 0) || (year mod 400 =? 0)).

Definition _days_before_year (year : Z) : Z :=
  let y := year - 1 in
  y * 365 + y / 4 - y / 100 + y / 400.

Definition _DAYS_IN_MONTH : list Z :=
  [-1; 31; 28; 31; 30; 31; 30; 31; 31; 30; 31; 30; 31].

Definition _DAYS_BEFORE_MONTH : list Z :=
  [-1; 0; 31; 59; 90; 120; 151; 181; 212; 243; 273; 304; 334].

(** Indexing of the two tables, at the indices 1..12 the module uses. *)
Definition table (t : list Z) (month : Z) : Z := nth (Z.to_nat month) t (-1).

Definition _days_in_month (year month : Z) : Z :=
  if (month =? 2) && _is_leap year then 29 else table _DAYS_IN_MONTH month.

Definition _days_before_month (year month : Z) : Z :=
  table _DAYS_BEFORE_MONTH month
  + (if (2 <? month) && _is_leap year then 1 else 0).

Definition _ymd2ord (year month day : Z) : Z :=
  _days_before_year year + _days_before_month year month + day.

Definition _DI400Y : Z := 146097.
Definition _DI100Y : Z := 36524.
Definition _DI4Y : Z := 1461.

Definition _ord2ymd (n0 : Z) : Z * Z * Z :=
  let n := n0 - 1 in
  let n400 := n / _DI400Y in
  let n := n mod _DI400Y in
  let year := n400 * 400 + 1 in
  let n100 := n / _DI100Y in
  let n := n mod _DI100Y in
  let n4 := n / _DI4Y in
  let n := n mod _DI4Y in
  let n1 := n / 365 in
  let n := n mod 365 in
  let year := year + n100 * 100 + n4 * 4 + n1 in
  if (n1 =? 4) || (n100 =? 4) then (year - 1, 12, 31)
  else
    let leapyear := (n1 =? 3) && (negb (n4 =? 24) || (n100 =? 3)) in
    let month := Z.shiftr (n + 50) 5 in
    let preceding :=
      table _DAYS_BEFORE_MONTH month
      + (if (2 <? month) && leapyear then 1 else 0) in
    if n <? preceding then
      let month := month - 1 in
      let preceding :=
        preceding
        - (table _DAYS_IN_MONTH month
           + (if (month =? 2) && leapyear then 1 else 0)) in
      (year, month, n - preceding + 1)
    else (year, month, n - preceding + 1).

Record date : Type := mkdate { year : Z; month : Z; day : Z }.

(** [_check_date_fields]: the three range checks of every constructor. *)
Definition _check_date_fields (y m d : Z) : bool :=
  (MINYEAR <=? y) && (y <=? MAXYEAR)
  && (1 <=? m) && (m <=? 12)
  && (1 <=? d) && (d <=? _days_in_month y m).

(** The first of the three checks. *)
Definition year_ok (y : Z) : bool := (MINYEAR <=? y) && (y <=? MAXYEAR).

(** [date(y, m, d)], and [datetime(y, m, d).date()]. *)
Definition date_new (y m d : Z) : result date :=
  if _check_date_fields y m d then Ok (mkdate y m d) else Raise ValueError.

Definition toordinal (d : date) : Z := _ymd2ord (year d) (month d) (day d).

Definition fromordinal (n : Z) : date :=
  let '(y, m, d) := _ord2ymd n in mkdate y m d.

(** [d + timedelta(days=n)]. *)
Definition date_add_days (d : date) (n : Z) : result date :=
  let o := toordinal d + n in
  if (0 <? o) && (o <=? _MAXORDINAL) then Ok (fromordinal o)
  else Raise OverflowError.

(** Comparison of dates is comparison of their (year, month, day) triples. *)
Definition date_cmp (a b : date) : comparison :=
  match year a ?= year b with
  | Eq =>
      match month a ?= month b with
      | Eq => day a ?= day b
      | c => c
      end
  | c => c
  end.

Definition date_ltb (a b : date) : bool :=
  match date_cmp a b with Lt => true | _ => false end.

Definition date_gtb (a b : date) : bool := date_ltb b a.

Definition date_leb (a b : date) : bool := negb (date_ltb b a).

(** A timezone-aware [datetime] in UTC, as the model's
    [DateTime(timezone=True)] columns hold them and as the [utcnow()] of
    [legal_api.utils.datetime] gives them: a calendar date and a time of
    day. *)
Record datetime : Type := mkdatetime {
  dt_date : date;
  hour : Z;
  minute : Z;
  second : Z;
  microsecond : Z
}.

(** [dt.date()]. *)
Definition to_date (dt : datetime) : date := dt_date dt.

Definition time_cmp (a b : datetime) : comparison :=
  match hour a ?= hour b with
  | Eq =>
      match minute a ?= minute b with
      | Eq =>
          match second a ?= second b with
          | Eq => microsecond a ?= microsecond b
          | c => c
          end
      | c => c
      end
  | c => c
  end.

Definition datetime_cmp (a b : datetime) : comparison :=
  match date_cmp (dt_date a) (dt_date b) with
  | Eq => time_cmp a b
  | c => c
  end.

Definition datetime_gtb (a b : datetime) : bool :=
  match datetime_cmp a b with Gt => true | _ => false end.

(** [dt.replace(year, month, day)]: the time of day is kept. *)
Definition datetime_replace (dt : datetime) (y m d : Z) : result datetime :=
  rbind (date_new y m d)
        (fun d' => Ok (mkdatetime d' (hour dt) (minute dt) (second dt)
                                  (microsecond dt))).

(** [dt + timedelta(days=n)]. *)
Definition datetime_add_days (dt : datetime) (n : Z) : result datetime :=
  rbind (date_add_days (dt_date dt) n)
        (fun d' => Ok (mkdatetime d' (hour dt) (minute dt) (second dt)
                                  (microsecond dt))).

End PyDatetime.

Import PyDatetime.

(** ** The [datedelta] package

    [datedelta(years, months, days)] added to a date: the years are added,
    then the months, then the days; when adding years or months lands on a
    day the month does not have, the date moves to the first day of the
    following month.  The day part is a [timedelta]. *)

Module Datedelta.

Record datedelta : Type := mkdelta { years : Z; months : Z; days : Z }.

(** The year, month and day reached before the days are added. *)
Definition shift_ymd (delta : datedelta) (y m d : Z) : Z * Z * Z :=
  let '(y, m, d) :=
    if years delta =? 0 then (y, m, d)
    else
      let y := y + years delta in
      if _days_in_month y m <? d then (y, m + 1, 1) else (y, m, d) in
  if months delta =? 0 then (y, m, d)
  else
    let m := m + months delta in
    let y := y + (m - 1) / 12 in
    let m := (m - 1) mod 12 + 1 in
    if _days_in_month y m <? d then (y, m + 1, 1) else (y, m, d).

(** [date + datedelta]. *)
Definition date_add (other : date) (delta : datedelta) : result date :=
  let '(y, m, d) := shift_ymd delta (year other) (month other) (day other) in
  rbind (date_new y m d)
        (fun r => if days delta =? 0 then Ok r
                  else date_add_days r (days delta)).

(** [datetime + datedelta]. *)
Definition datetime_add (other : datetime) (delta : datedelta)
  : result datetime :=
  let od := dt_date other in
  let '(y, m, d) := shift_ymd delta (year od) (month od) (day od) in
  rbind (datetime_replace other y m d)
        (fun r => if days delta =? 0 then Ok r
                  else datetime_add_days r (days delta)).

End Datedelta.

Import Datedelta.

(** ** Strings: slices and [int] *)

Module PyStr.

Definition len (s : string) : Z := Z.of_nat (String.length s).

(** A slice bound: a negative bound counts from the end, and the bound is
    clipped to the string. *)
Definition clip (s : string) (i : Z) : nat :=
  Z.to_nat (if i <? 0 then Z.max (i + len s) 0 else Z.min i (len s)).

(** [s[:stop]] *)
Definition slice_to (s : string) (stop : Z) : string :=
  substring 0 (clip s stop) s.

(** [s[start:]] *)
Definition slice_from (s : string) (start : Z) : string :=
  substring (clip s start) (String.length s - clip s start) s.

(** [ord(c)] *)
Definition ord (c : ascii) : Z := Z.of_N (N_of_ascii c).

(** The characters [int] skips around a number: the ASCII white space and,
    among the other code points below 256, NEL and the no-break space. *)
Definition is_space (c : ascii) : bool :=
  let n := ord c in
  ((9 <=? n) && (n <=? 13)) || (n =? 32) || (n =? 133) || (n =? 160).

Definition is_digit (c : ascii) : bool :=
  let n := ord c in (48 <=? n) && (n <=? 57).

Definition digit_value (c : ascii) : Z := ord c - 48.

Definition is_underscore (c : ascii) : bool := ord c =? 95.

Fixpoint skip_space (s : string) : string :=
  match s with
  | String c s' => if is_space c then skip_space s' else s
  | EmptyString => s
  end.

Inductive scanned : Type := Nothing | Digit | Underscore.

(** The digit scan of [int]: digits, with single underscores between them.
    It stops at the first other character and gives the value read and the
    rest of the string; it fails on a doubled or trailing underscore and
    when it read no digit. *)
Fixpoint scan_digits (s : string) (prev : scanned) (acc : Z)
  : option (Z * string) :=
  let stop :=
    match prev with
    | Digit => Some (acc, s)
    | Nothing | Underscore => None
    end in
  match s with
  | String c s' =>
      if is_underscore c then
        match prev with
        | Underscore => None
        | Nothing | Digit => scan_digits s' Underscore acc
        end
      else if is_digit c then scan_digits s' Digit (acc * 10 + digit_value c)
      else stop
  | EmptyString => stop
  end.

Definition strip_sign (s : string) : Z * string :=
  match s with
  | String c s' =>
      if ord c =? 43 then (1, s')
      else if ord c =? 45 then (-1, s')
      else (1, s)
  | EmptyString => (1, s)
  end.

Definition starts_with_underscore (s : string) : bool :=
  match s with
  | String c _ => is_underscore c
  | EmptyString => false
  end.

(** [int(s)] in base 10: optional white space, an optional sign, the
    digits, optional white space. *)
Definition int (s : string) : result Z :=
  let '(sign, s) := strip_sign (skip_space s) in
  if starts_with_underscore s then Raise ValueError
  else
    match scan_digits s Nothing 0 with
    | Some (v, rest) =>
        match skip_space rest with
        | EmptyString => Ok (sign * v)
        | String _ _ => Raise ValueError
        end
    | None => Raise ValueError
    end.

(** [s in t] for a tuple of strings [t]. *)
Definition in_tuple (s : string) (t : list string) : bool :=
  existsb (String.eqb s) t.

End PyStr.

Import PyStr.

(** ** The model *)

Module LegalTypes.

Inductive t : Type :=
| COOP | BCOMP | COMP | CONTINUE_IN
| CO_1860 | CO_1862 | CO_1878 | CO_1890 | CO_1897
| BC_ULC_COMPANY | ULC_CONTINUE_IN
| ULC_CO_1860 | ULC_CO_1862 | ULC_CO_1878 | ULC_CO_1890 | ULC_CO_1897
| BC_CCC | EXTRA_PRO_A | EXTRA_PRO_B | CEMETARY | EXTRA_PRO_REG | FOREIGN
| LICENSED | LIBRARY | LIMITED_CO | PRIVATE_ACT | PARISHES | PENS_FUND_SOC
| REGISTRATION | RAILWAYS | SOCIETY_BRANCH | TRUST | TRAMWAYS | XPRO_COOP
| CCC_CONTINUE_IN | SOCIETY | XPRO_SOCIETY | SOLE_PROP | PARTNERSHIP
| LIM_PARTNERSHIP | XPRO_LIM_PARTNR | LL_PARTNERSHIP | XPRO_LL_PARTNR
| MISC_FIRM | FINANCIAL | CONT_IN_SOCIETY.

Definition value (l : t) : string :=
  match l with
  | COOP => "CP" | BCOMP => "BEN" | COMP => "BC" | CONTINUE_IN => "C"
  | CO_1860 => "QA" | CO_1862 => "QB" | CO_1878 => "QC" | CO_1890 => "QD"
  | CO_1897 => "QE" | BC_ULC_COMPANY => "ULC" | ULC_CONTINUE_IN => "CUL"
  | ULC_CO_1860 => "UQA" | ULC_CO_1862 => "UQB" | ULC_CO_1878 => "UQC"
  | ULC_CO_1890 => "UQD" | ULC_CO_1897 => "UQE" | BC_CCC => "CC"
  | EXTRA_PRO_A => "A" | EXTRA_PRO_B => "B" | CEMETARY => "CEM"
  | EXTRA_PRO_REG => "EPR" | FOREIGN => "FOR" | LICENSED => "LIC"
  | LIBRARY => "LIB" | LIMITED_CO => "LLC" | PRIVATE_ACT => "PA"
  | PARISHES => "PAR" | PENS_FUND_SOC => "PFS" | REGISTRATION => "REG"
  | RAILWAYS => "RLY" | SOCIETY_BRANCH => "SB" | TRUST => "T"
  | TRAMWAYS => "TMY" | XPRO_COOP => "XCP" | CCC_CONTINUE_IN => "CCC"
  | SOCIETY => "S" | XPRO_SOCIETY => "XS" | SOLE_PROP => "SP"
  | PARTNERSHIP => "GP" | LIM_PARTNERSHIP => "LP" | XPRO_LIM_PARTNR => "XP"
  | LL_PARTNERSHIP => "LL" | XPRO_LL_PARTNR => "XL" | MISC_FIRM => "MF"
  | FINANCIAL => "FI" | CONT_IN_SOCIETY => "CS"
  end.

End LegalTypes.

(** The columns of the [businesses] table.  Every column is nullable. *)
Record Business : Type := mkBusiness {
  id : option Z;
  last_modified : option datetime;
  last_ledger_id : option Z;
  last_remote_ledger_id : option Z;
  last_ledger_timestamp : option datetime;
  last_ar_date : option datetime;
  last_agm_date : option datetime;
  legal_name : option string;
  legal_type : option string;
  founding_date : option datetime;
  dissolution_date : option datetime;
  _identifier : option string;
  tax_id : option string;
  fiscal_year_end_date : option datetime;
  restriction_ind : option bool;
  last_ar_year : option Z;
  association_type : option string;
  submitter_userid : option Z
}.

(** [self._identifier = value] *)
Definition set__identifier (self : Business) (value : string) : Business :=
  mkBusiness (id self) (last_modified self) (last_ledger_id self)
    (last_remote_ledger_id self) (last_ledger_timestamp self)
    (last_ar_date self) (last_agm_date self) (legal_name self)
    (legal_type self) (founding_date self) (dissolution_date self)
    (Some value) (tax_id self) (fiscal_year_end_date self)
    (restriction_ind self) (last_ar_year self) (association_type self)
    (submitter_userid self).

(** [column == 'literal'] on a nullable string column. *)
Definition column_eq (column : option string) (literal : string) : bool :=
  match column with
  | Some s => String.eqb s literal
  | None => false
  end.

(** Reading an attribute of the value of a nullable column. *)
Definition attribute_of {A : Type} (column : option A) : result A :=
  match column with
  | Some a => Ok a
  | None => Raise AttributeError
  end.

(** What the methods of the model reach besides [self]: the clock behind
    [datetime.utcnow()], of which every call takes the next reading, and
    the calls made on [db.session].  [SessionDelete] is the session's
    [delete(obj)], the physical removal of a row. *)
Inductive db_event : Type :=
| SessionAdd (b : Business)
| SessionCommit
| SessionDelete (b : Business).

Record World : Type := mkWorld {
  clock : nat -> datetime;
  ticks : nat;
  session_log : list db_event
}.

(** [datetime.utcnow()]: the next reading of the clock. *)
Definition utcnow : M World datetime :=
  fun w => (Ok (clock w (ticks w)),
            mkWorld (clock w) (S (ticks w)) (session_log w)).


Local Open Scope py_scope.

(** [Business.validate_identifier] *)
Definition validate_identifier (identifier : string) : bool :=
  if String.eqb (slice_to identifier 2) "NR" then true
  else if len identifier <? 9 then false
  else
    match int (slice_from identifier (-7)) with
    | Ok d =>
        if d =? 0 then false
        else if negb (in_tuple (slice_to identifier (-7)) ["CP"; "XCP"; "BC"])
             then false
             else true
    | Raise _ => false
    end.

(** The setter of [Business.identifier]; the state is [self]. *)
Definition identifier_setter (value : string) : M Business unit :=
  if validate_identifier value then
    self <- get ;; put (set__identifier self value)
  else raise (BusinessException "invalid-identifier-format" 406).

(** The getter of [Business.identifier]. *)
Definition identifier (self : Business) : option string := _identifier self.

(** [Business.next_anniversary] *)
Definition next_anniversary (self : Business) : result datetime :=
  match py_or (last_ar_date self) (founding_date self) with
  | Some last_anniversary => datetime_add last_anniversary (mkdelta 1 0 0)
  | None => Raise TypeError
  end.

(** [Business.get_ar_dates] *)
Definition get_ar_dates (self : Business) (next_ar_year : Z)
  : M World (date * date) :=
  ar_min_date <- lift (date_new next_ar_year 1 1) ;;
  ar_max_date <- lift (date_new next_ar_year 12 31) ;;
  '(ar_min_date, ar_max_date) <-
    (if column_eq (legal_type self) (LegalTypes.value LegalTypes.COOP) then
       if next_ar_year =? 2020 then
         ar_max_date <- lift (date_new (next_ar_year + 1) 10 31) ;;
         ret (ar_min_date, ar_max_date)
       else
         ar_max_date <- lift (date_new (next_ar_year + 1) 4 30) ;;
         ret (ar_min_date, ar_max_date)
     else if column_eq (legal_type self)
                       (LegalTypes.value LegalTypes.BCOMP) then
       founded <- lift (attribute_of (founding_date self)) ;;
       ar_min_date <- lift (date_new next_ar_year
                                     (month (to_date founded))
                                     (day (to_date founded))) ;;
       ar_max_date <- lift (date_add ar_min_date (mkdelta 0 0 60)) ;;
       ret (ar_min_date, ar_max_date)
     else ret (ar_min_date, ar_max_date)) ;;
  now <- utcnow ;;
  if date_gtb ar_max_date (to_date now) then
    now <- utcnow ;;
    ret (ar_min_date, to_date now)
  else ret (ar_min_date, ar_max_date).

(** [Business.good_standing] *)
Definition good_standing (self : Business) : M World bool :=
  match py_or (last_ar_date self) (founding_date self) with
  | Some last_ar_date =>
      due <- lift (datetime_add last_ar_date (mkdelta 1 2 1)) ;;
      now <- utcnow ;;
      ret (datetime_gtb due now)
  | None => raise TypeError
  end.

(** ** The dissolution validator *)

#[warnings="-register-all"] Inductive json : Type :=
| JNull
| JBool (b : bool)
| JNumber (n : Z)
| JString (s : string)
| JArray (items : list json)
| JObject (members : list (string * json)).

(** A [Dict]: its members in insertion order. *)
Definition Dict : Type := list (string * json).

(** Truthiness of an argument annotated [Dict]: [None] and the empty
    dictionary are falsy. *)
Definition dict_truthy (con : option Dict) : bool :=
  match con with
  | Some (_ :: _) => true
  | Some [] | None => false
  end.

Module HTTPStatus.
Definition BAD_REQUEST : Z := 400.
End HTTPStatus.

(** Modelled from the spec: the [Error] class of [legal_api.errors], which
    is not among the sources: a status code and the list of field-level
    error entries. *)
Record Error : Type := mkError {
  code : Z;
  msg : list (list (string * string))
}.

Module dissolution.

Section Validate.

(** [flask_babel]'s [_]: the translation of a message in the locale of the
    request. *)
Variable gettext : string -> string.

(** [validate] *)
Definition validate (business : option Business) (con : option Dict)
  : result (option Error) :=
  if negb (truthy business) || negb (dict_truthy con) then
    Ok (Some (mkError HTTPStatus.BAD_REQUEST
                [[("error",
                   gettext "A valid business and filing are required.")]]))
  else Ok None.

End Validate.

End dissolution.

(** ** Sample values *)

(** [Business()]: no column set. *)
Definition blank_business : Business :=
  mkBusiness None None None None None None None None None None None None
             None None None None None None.

Definition midnight (y m d : Z) : datetime := mkdatetime (mkdate y m d) 0 0 0 0.

(** A business of the given legal type, founded on the given day. *)
Definition business_of (legal : string) (founded : datetime) : Business :=
  mkBusiness None None None None None None None None (Some legal)
             (Some founded) None None None None None None None None.

(** A world whose clock stands at [now], before any reading and any call
    on the session. *)
Definition world_at (now : datetime) : World := mkWorld (fun _ => now) 0 [].

(** ** The specification's reading of the operations *)

(** The rule table for the annual-report window, before the maximum is
    clamped: cooperative, benefit company, all others. *)
Definition ar_rule_table (self : Business) (target_year : Z)
  : result (date * date) :=
  if column_eq (legal_type self) "CP" then
    min_date <~ date_new target_year 1 1 ;;
    max_date <~ (if target_year =? 2020
                 then date_new (target_year + 1) 10 31
                 else date_new (target_year + 1) 4 30) ;;
    Ok (min_date, max_date)
  else if column_eq (legal_type self) "BEN" then
    founded <~ attribute_of (founding_date self) ;;
    min_date <~ date_new target_year (month (to_date founded))
                         (day (to_date founded)) ;;
    max_date <~ date_add_days min_date 60 ;;
    Ok (min_date, max_date)
  else
    min_date <~ date_new target_year 1 1 ;;
    max_date <~ date_new target_year 12 31 ;;
    Ok (min_date, max_date).

(** The dates of the two readings of the clock a call started in [w] can
    make. *)
Definition first_reading (w : World) : date := to_date (clock w (ticks w)).
Definition second_reading (w : World) : date :=
  to_date (clock w (S (ticks w))).

(** The clamp of the maximum: a maximum later than the date first read is
    replaced by the date read next. *)
Definition clamp_to_today (w : World) (window : date * date) : date * date :=
  let '(min_date, max_date) := window in
  if date_gtb max_date (first_reading w)
  then (min_date, second_reading w)
  else (min_date, max_date).

(** The date of the latest reading of the clock made in [w]. *)
Definition today (w : World) : date := to_date (clock w (Nat.pred (ticks w))).

(** "Starts with [NR]", "the trailing 7 characters", "the remaining
    prefix", "the fixed set of known prefixes". *)
Definition starts_with_NR (s : string) : Prop :=
  exists rest : string, s = ("NR" ++ rest)%string.

Definition known_prefixes : list string := ["CP"; "XCP"; "BC"].

Definition trailing7 (s : string) : string :=
  substring (String.length s - 7) 7 s.

Definition leading (s : string) : string :=
  substring 0 (String.length s - 7) s.

Definition all_digits (s : string) : bool :=
  forallb is_digit (list_ascii_of_string s).

(** The current time of a call started in [w]: the next reading of the
    clock. *)
Definition now (w : World) : datetime := clock w (ticks w).

(** "last_ar_date if set, otherwise founding_date". *)
Definition last_ar_date_or_founding_date (self : Business) : option datetime :=
  match last_ar_date self with
  | Some filed => Some filed
  | None => founding_date self
  end.

(** "1 year, 2 months and 1 day". *)
Definition grace_period : datedelta := mkdelta 1 2 1.

(** "HTTP 400 with a field-level error list stating that a valid business
    and filing are required", the message in the locale of the request. *)
Definition required_error (gettext : string -> string) : Error :=
  mkError 400
    [[("error", gettext "A valid business and filing are required.")]].

(** "The founding month/day exists in the target year". *)
Definition day_exists_in (y m d : Z) : bool :=
  (1 <=? m) && (m <=? 12) && (1 <=? d) && (d <=? _days_in_month y m).

(** ** Further definitions for the properties of the calendar *)

(** The month and day that [_ord2ymd] finds for the day [n] of a year,
    counted from 0: the second half of its body. *)
Definition month_day_of (leapyear : bool) (n : Z) : Z * Z :=
  let month := Z.shiftr (n + 50) 5 in
  let preceding :=
    table _DAYS_BEFORE_MONTH month
    + (if (2 <? month) && leapyear then 1 else 0) in
  if n <? preceding then
    let month := month - 1 in
    let preceding :=
      preceding
      - (table _DAYS_IN_MONTH month
         + (if (month =? 2) && leapyear then 1 else 0)) in
    (month, n - preceding + 1)
  else (month, n - preceding + 1).

(** The month and day found are the ones with [n] days before them. *)
Definition month_day_ok (leapyear : bool) (n : Z) : bool :=
  let '(m, d) := month_day_of leapyear n in
  (1 <=? m) && (m <=? 12) && (1 <=? d)
  && (d <=? (if (m =? 2) && leapyear then 29 else table _DAYS_IN_MONTH m))
  && (table _DAYS_BEFORE_MONTH m + (if (2 <? m) && leapyear then 1 else 0) + d
      =? n + 1).

(** A date of the calendar: one that [date(y, m, d)] constructs. *)
Definition valid_date (d : date) : Prop :=
  _check_date_fields (year d) (month d) (day d) = true.


(** ** Further definitions for the order of datetimes and for [datedelta] *)

(** The fields Python compares two datetimes by, in order. *)
Definition datetime_fields (a : datetime) : list Z :=
  [year (dt_date a); month (dt_date a); day (dt_date a);
   hour a; minute a; second a; microsecond a].

(** The lexicographic order on lists of integers. *)
Fixpoint lex_lt (a b : list Z) : Prop :=
  match a, b with
  | x :: a', y :: b' => x < y \/ (x = y /\ lex_lt a' b')
  | _, _ => False
  end.

(** The step of [shift_ymd] that adds [k] months, [k] not 0, to a year,
    month and day. *)
Definition shift_months (k : Z) (ymd : Z * Z * Z) : Z * Z * Z :=
  let '(y, m, d) := ymd in
  let m := m + k in
  let y := y + (m - 1) / 12 in
  let m := (m - 1) mod 12 + 1 in
  if _days_in_month y m <? d then (y, m + 1, 1) else (y, m, d).

(** ** Further definitions for identifiers *)

(** Every character of a string passes a test. *)
Fixpoint every (f : ascii -> bool) (s : string) : bool :=
  match s with
  | String c s' => f c && every f s'
  | EmptyString => true
  end.

(** The characters [int] reads without raising: digits, the two signs, the
    underscore and white space. *)
Definition int_character (c : ascii) : bool :=
  is_digit c || is_space c || is_underscore c
  || (ord c =? 43) || (ord c =? 45).

(** The number a string of digits writes, after the digits of [acc]. *)
Fixpoint decimal_value (acc : Z) (s : string) : Z :=
  match s with
  | String c s' => decimal_value (acc * 10 + digit_value c) s'
  | EmptyString => acc
  end.

(** The state of a business after the given values were assigned to its
    identifier one after the other, a raised error ending that assignment
    only. *)
Definition assign_all (values : list string) (self : Business) : Business :=
  fold_left (fun b value => snd (identifier_setter value b)) values self.

(** The last value of a list that [validate_identifier] accepts. *)
Definition last_valid (values : list string) : option string :=
  find validate_identifier (rev values).

(** ** The queries of the model

    The [businesses] table is the list of its rows.  A query is the
    filters it applies to the rows and the call that runs it,
    [one_or_none()] or [all()]; running a query is where the database can
    fail. *)

Module Query.

(** The exceptions a query can end in: the two the model catches, the one
    [one_or_none()] raises itself, any other error of the database driver,
    and an exception of Python raised while the query is built. *)
Inductive failure : Type :=
| OperationalError
| ResourceClosedError
| MultipleResultsFound
| DBAPIError
| PythonError (e : exn).

Inductive answer (A : Type) : Type :=
| Returned (a : A)
| Failed (e : failure).

Arguments Returned {A} a.
Arguments Failed {A} e.

Record Database : Type := mkDatabase {
  outage : option failure;
  businesses : list Business
}.

(** [query.one_or_none()] *)
Definition one_or_none {A : Type} (db : Database) (rows : list A)
  : answer (option A) :=
  match outage db with
  | Some e => Failed e
  | None =>
      match rows with
      | [] => Returned None
      | [row] => Returned (Some row)
      | _ :: _ :: _ => Failed MultipleResultsFound
      end
  end.

(** [query.all()] *)
Definition all {A : Type} (db : Database) (rows : list A)
  : answer (list A) :=
  match outage db with
  | Some e => Failed e
  | None => Returned rows
  end.

(** [column = value] in SQL, on a nullable integer column. *)
Definition column_eqZ (column : option Z) (value : Z) : bool :=
  match column with
  | Some n => n =? value
  | None => false
  end.

(** [column_a = column_b] in SQL, on two nullable integer columns. *)
Definition columns_eqZ (a b : option Z) : bool :=
  match a, b with
  | Some n, Some m => n =? m
  | _, _ => false
  end.

(** [column IS NULL], what [filter_by(column=None)] asks for. *)
Definition is_null {A : Type} (column : option A) : bool := negb (truthy column).

(** [column IN (values)] *)
Definition column_in (column : option string) (values : list string) : bool :=
  match column with
  | Some s => existsb (String.eqb s) values
  | None => false
  end.

(** Truthiness of an optional [str] argument and of an optional [int]
    argument: [None], the empty string and 0 are falsy. *)
Definition str_truthy (o : option string) : bool :=
  match o with
  | Some s => negb (String.eqb s "")
  | None => false
  end.

Definition int_truthy (o : option Z) : bool :=
  match o with
  | Some n => negb (n =? 0)
  | None => false
  end.

(** [list.remove(x)]: without the first item equal to [x]; [ValueError]
    when there is none. *)
Fixpoint list_remove (x : string) (l : list string) : result (list string) :=
  match l with
  | [] => Raise ValueError
  | y :: l' =>
      if String.eqb y x then Ok l'
      else rbind (list_remove x l') (fun r => Ok (y :: r))
  end.

(** The members of [LegalTypes], in the order of the class body. *)
Definition LegalTypes_members : list LegalTypes.t :=
  [LegalTypes.COOP; LegalTypes.BCOMP; LegalTypes.COMP;
   LegalTypes.CONTINUE_IN; LegalTypes.CO_1860; LegalTypes.CO_1862;
   LegalTypes.CO_1878; LegalTypes.CO_1890; LegalTypes.CO_1897;
   LegalTypes.BC_ULC_COMPANY; LegalTypes.ULC_CONTINUE_IN;
   LegalTypes.ULC_CO_1860; LegalTypes.ULC_CO_1862; LegalTypes.ULC_CO_1878;
   LegalTypes.ULC_CO_1890; LegalTypes.ULC_CO_1897; LegalTypes.BC_CCC;
   LegalTypes.EXTRA_PRO_A; LegalTypes.EXTRA_PRO_B; LegalTypes.CEMETARY;
   LegalTypes.EXTRA_PRO_REG; LegalTypes.FOREIGN; LegalTypes.LICENSED;
   LegalTypes.LIBRARY; LegalTypes.LIMITED_CO; LegalTypes.PRIVATE_ACT;
   LegalTypes.PARISHES; LegalTypes.PENS_FUND_SOC; LegalTypes.REGISTRATION;
   LegalTypes.RAILWAYS; LegalTypes.SOCIETY_BRANCH; LegalTypes.TRUST;
   LegalTypes.TRAMWAYS; LegalTypes.XPRO_COOP; LegalTypes.CCC_CONTINUE_IN;
   LegalTypes.SOCIETY; LegalTypes.XPRO_SOCIETY; LegalTypes.SOLE_PROP;
   LegalTypes.PARTNERSHIP; LegalTypes.LIM_PARTNERSHIP;
   LegalTypes.XPRO_LIM_PARTNR; LegalTypes.LL_PARTNERSHIP;
   LegalTypes.XPRO_LL_PARTNR; LegalTypes.MISC_FIRM; LegalTypes.FINANCIAL;
   LegalTypes.CONT_IN_SOCIETY].

(** [Business.find_by_legal_name] *)
Definition find_by_legal_name (db : Database) (name : option string)
  : answer (option Business) :=
  match name with
  | Some value =>
      if str_truthy name then
        match one_or_none db
                (filter (fun b => is_null (dissolution_date b))
                   (filter (fun b => column_eq (legal_name b) value)
                      (businesses db))) with
        | Failed OperationalError | Failed ResourceClosedError =>
            Returned None
        | business => business
        end
      else Returned None
  | None => Returned None
  end.

(** [Business.find_by_identifier] *)
Definition find_by_identifier (db : Database) (identifier : option string)
  : answer (option Business) :=
  match identifier with
  | Some value =>
      if str_truthy identifier then
        one_or_none db
          (filter (fun b => column_eq (_identifier b) value) (businesses db))
      else Returned None
  | None => Returned None
  end.

(** [Business.find_by_internal_id] *)
Definition find_by_internal_id (db : Database) (internal_id : option Z)
  : answer (option Business) :=
  match internal_id with
  | Some value =>
      if int_truthy internal_id then
        one_or_none db
          (filter (fun b => column_eqZ (id b) value) (businesses db))
      else Returned None
  | None => Returned None
  end.

(** [Business.get_all_by_no_tax_id] *)
Definition get_all_by_no_tax_id (db : Database) : answer (list Business) :=
  let no_tax_id_types := LegalTypes.value LegalTypes.COOP in
  let tax_id_types := map LegalTypes.value LegalTypes_members in
  match list_remove no_tax_id_types tax_id_types with
  | Raise e => Failed (PythonError e)
  | Ok tax_id_types =>
      all db
        (filter (fun b => is_null (tax_id b))
           (filter (fun b => column_in (legal_type b) tax_id_types)
              (businesses db)))
  end.

Section Filings.

(** The [Filing] model is not among the sources; the query reads two of
    its columns, [Filing.id] and [Filing.business_id]. *)
Variable Filing : Type.
Variable Filing_id : Filing -> option Z.
Variable Filing_business_id : Filing -> option Z.

(** [Business.get_filing_by_id]: the rows of the two tables joined, the
    first argument compared with the identifier of the business and the
    second with the id of the filing. *)
Definition get_filing_by_id (db : Database) (filings : list Filing)
           (business_identifier : string) (filing_id : Z)
  : answer (option Filing) :=
  match one_or_none db
          (filter (fun row : Business * Filing =>
                     column_eqZ (Filing_id (snd row)) filing_id)
             (filter (fun row : Business * Filing =>
                        column_eq (_identifier (fst row)) business_identifier)
                (filter (fun row : Business * Filing =>
                           columns_eqZ (id (fst row))
                                       (Filing_business_id (snd row)))
                   (list_prod (businesses db) filings)))) with
  | Returned (Some row) => Returned (Some (snd row))
  | Returned None => Returned None
  | Failed e => Failed e
  end.

End Filings.

End Query.

(** ** [Business.json] *)

Module Json.

(** The values the dictionary holds: strings, booleans and [None]. *)
Inductive value : Type :=
| Str (s : string)
| Bool (b : bool)
| Null.

Definition of_str (column : option string) : value :=
  match column with
  | Some s => Str s
  | None => Null
  end.

Definition of_bool (column : option bool) : value :=
  match column with
  | Some b => Bool b
  | None => Null
  end.

(** The decimal digits of a natural number. *)
Definition decimal (n : Z) : string :=
  DecimalString.NilZero.string_of_uint (N.to_uint (Z.to_N n)).

Fixpoint zeros (k : nat) : string :=
  match k with
  | O => ""
  | S k' => String "0" (zeros k')
  end.

(** ["%0<width>d" % n] *)
Definition zero_padded (width : nat) (n : Z) : string :=
  if n <? 0 then
    let digits := decimal (- n) in
    "-" ++ zeros (width - 1 - String.length digits) ++ digits
  else
    let digits := decimal n in
    zeros (width - String.length digits) ++ digits.

(** [date.isoformat()] *)
Definition date_isoformat (d : date) : string :=
  zero_padded 4 (year d) ++ "-" ++ zero_padded 2 (month d) ++ "-"
  ++ zero_padded 2 (day d).

(** [datetime.isoformat()] of a datetime in UTC. *)
Definition datetime_isoformat (dt : datetime) : string :=
  date_isoformat (dt_date dt) ++ "T"
  ++ zero_padded 2 (hour dt) ++ ":" ++ zero_padded 2 (minute dt) ++ ":"
  ++ zero_padded 2 (second dt)
  ++ (if microsecond dt =? 0 then ""
      else "." ++ zero_padded 6 (microsecond dt))
  ++ "+00:00".

(** [datetime.date(column).isoformat() if column else ''] *)
Definition date_or_empty (column : option datetime) : string :=
  match column with
  | Some dt => date_isoformat (to_date dt)
  | None => ""
  end.

(** A dictionary: its items in insertion order.  [d[key]] is the value of
    the first item with that key. *)
Definition dict : Type := list (string * value).

Fixpoint dict_get (d : dict) (key : string) : option value :=
  match d with
  | (k, v) :: d' => if String.eqb k key then Some v else dict_get d' key
  | [] => None
  end.

Definition keys (d : dict) : list string := map fst d.

Section JsonOf.

(** [LegislationDatetime.as_legislation_timezone_from_date(d)
    .astimezone(timezone.utc)]: the class is not among the sources. *)
Variable legislation_utc : datetime -> datetime.

(** [Business.json] *)
Definition json (self : Business) : M World dict :=
  report_year <-
    lift (if Query.int_truthy (last_ar_year self)
          then attribute_of (last_ar_year self)
          else rbind (attribute_of (founding_date self))
                     (fun founded => Ok (year (to_date founded)))) ;;
  ' (ar_min_date, ar_max_date) <- get_ar_dates self (report_year + 1) ;;
  founded <- lift (attribute_of (founding_date self)) ;;
  modified <- lift (attribute_of (last_modified self)) ;;
  anniversary <- lift (next_anniversary self) ;;
  ledger <- lift (attribute_of (last_ledger_timestamp self)) ;;
  standing <- good_standing self ;;
  let d :=
    [("foundingDate", Str (datetime_isoformat founded));
     ("identifier", of_str (identifier self));
     ("lastModified", Str (datetime_isoformat modified));
     ("lastAnnualReport", Str (date_or_empty (last_ar_date self)));
     ("nextAnnualReport",
      Str (datetime_isoformat (legislation_utc anniversary)));
     ("lastAnnualGeneralMeetingDate",
      Str (date_or_empty (last_agm_date self)));
     ("lastLedgerTimestamp", Str (datetime_isoformat ledger));
     ("legalName", of_str (legal_name self));
     ("legalType", of_str (legal_type self));
     ("hasRestrictions", of_bool (restriction_ind self));
     ("goodStanding", Bool standing);
     ("arMinDate", Str (date_isoformat ar_min_date));
     ("arMaxDate", Str (date_isoformat ar_max_date))] in
  let d :=
    match dissolution_date self with
    | Some dissolved =>
        (d ++ [("dissolutionDate",
                Str (date_isoformat (to_date dissolved)))])%list
    | None => d
    end in
  let d :=
    match fiscal_year_end_date self with
    | Some fiscal =>
        (d ++ [("fiscalYearEndDate",
                Str (date_isoformat (to_date fiscal)))])%list
    | None => d
    end in
  let d :=
    match tax_id self with
    | Some number =>
        if Query.str_truthy (tax_id self)
        then (d ++ [("taxId", Str number)])%list
        else d
    | None => d
    end in
  ret d.

End JsonOf.

End Json.

(** The keys [json] always sets, in their order. *)
Definition json_base_keys : list string :=
  ["foundingDate"; "identifier"; "lastModified"; "lastAnnualReport";
   "nextAnnualReport"; "lastAnnualGeneralMeetingDate";
   "lastLedgerTimestamp"; "legalName"; "legalType"; "hasRestrictions";
   "goodStanding"; "arMinDate"; "arMaxDate"].

(** A business as the table holds it, and its projection on 2026-11-04. *)
Definition stored_business : Business :=
  mkBusiness (Some 1) (Some (midnight 2025 9 4)) None None
             (Some (midnight 2025 9 4)) None None (Some "ACME LTD.")
             (Some "BC") (Some (midnight 2025 9 4)) None (Some "BC1234567")
             None None (Some false) None None None.

Definition stored_business_json : Json.dict :=
  Eval vm_compute in
    match fst (Json.json (fun d => d) stored_business
                         (world_at (midnight 2026 11 4))) with
    | Ok d => d
    | Raise _ => []
    end.

(** ** Storing a business: [save] and [delete]

    What [db.session.add(self)] and [db.session.commit()] do to [self]
    depends on the state SQLAlchemy keeps for a mapped object.  A
    transient object, built and never stored, is inserted: the database
    gives it its [id], and every column that is unset and declares a
    default takes that default, [datetime.utcnow] being called once for
    each such column.  A persistent object, loaded from the table or stored
    before, is written back with its columns as they are.  The versions
    table of [__versioned__] and the related tables are left out. *)





Section Persistence.

(** The value the database gives the primary key of a row inserted
    without one. *)
Variable serial : World -> Z.

(** The error, if any, the database raises when the session commits. *)
Variable commit_error : World -> option Query.failure.




End Persistence.




(** * Properties *)

(** ** Dates *)

Section DateFacts.

Lemma date_new_jan1 (y : Z) :
  date_new y 1 1 = if year_ok y then Ok (mkdate y 1 1) else Raise ValueError.
Proof.
  unfold date_new, _check_date_fields, year_ok.
  destruct ((MINYEAR <=? y) && (y <=? MAXYEAR)); reflexivity.
Qed.

Lemma date_new_dec31 (y : Z) :
  date_new y 12 31
  = if year_ok y then Ok (mkdate y 12 31) else Raise ValueError.
Proof.
  unfold date_new, _check_date_fields, year_ok.
  destruct ((MINYEAR <=? y) && (y <=? MAXYEAR)); reflexivity.
Qed.

Lemma date_new_bad_year (y m d : Z) :
  year_ok y = false -> date_new y m d = Raise ValueError.
Proof.
  unfold date_new, _check_date_fields, year_ok.
  intros ->. reflexivity.
Qed.

Lemma date_new_inv (y m d : Z) (x : date) :
  date_new y m d = Ok x ->
  x = mkdate y m d /\ _check_date_fields y m d = true.
Proof.
  unfold date_new.
  destruct (_check_date_fields y m d); intros H; inversion H; auto.
Qed.

Lemma check_year_ok (y m d : Z) :
  _check_date_fields y m d = true -> year_ok y = true.
Proof.
  unfold _check_date_fields, year_ok.
  destruct ((MINYEAR <=? y) && (y <=? MAXYEAR)); [reflexivity | discriminate].
Qed.

(** A [datedelta] of days only is a [timedelta]. *)
Lemma date_add_days_only (x : date) (n : Z) :
  _check_date_fields (year x) (month x) (day x) = true ->
  n <> 0 ->
  date_add x (mkdelta 0 0 n) = date_add_days x n.
Proof.
  intros Hx Hn. unfold date_add, shift_ymd, date_new. cbn.
  rewrite Hx. cbn.
  destruct (Z.eqb_spec n 0) as [E | _]; [contradiction | ].
  destruct x; reflexivity.
Qed.

Lemma date_cmp_refl (a : date) : date_cmp a a = Eq.
Proof. unfold date_cmp. now rewrite !Z.compare_refl. Qed.

Lemma date_ltb_irrefl (a : date) : date_ltb a a = false.
Proof. unfold date_ltb. now rewrite date_cmp_refl. Qed.

Lemma date_ltb_iff (a b : date) :
  date_ltb a b = true <->
  year a < year b \/
  (year a = year b /\
   (month a < month b \/ (month a = month b /\ day a < day b))).
Proof.
  unfold date_ltb, date_cmp.
  destruct (Z.compare_spec (year a) (year b));
    destruct (Z.compare_spec (month a) (month b));
    destruct (Z.compare_spec (day a) (day b));
    split; intros; try discriminate; try reflexivity; try lia.
Qed.

Lemma date_leb_of_not_gtb (a b : date) :
  date_gtb a b = false -> date_leb a b = true.
Proof. unfold date_leb, date_gtb. now intros ->. Qed.

Lemma date_leb_refl (a : date) : date_leb a a = true.
Proof. unfold date_leb. now rewrite date_ltb_irrefl. Qed.

End DateFacts.

Create HintDb dates.

#[local] Hint Resolve date_leb_refl date_leb_of_not_gtb : dates.

(** ** The annual-report window *)

#[local] Arguments date_add : simpl never.
#[local] Arguments date_add_days : simpl never.
#[local] Arguments date_new : simpl never.

(** Running [get_ar_dates] is running the rule table and then the clamp. *)
Lemma get_ar_dates_unfold (self : Business) (y : Z) (w : World) :
  get_ar_dates self y w =
  match date_new y 1 1, date_new y 12 31 with
  | Raise e, _ => (Raise e, w)
  | Ok _, Raise e => (Raise e, w)
  | Ok _, Ok _ =>
      match ar_rule_table self y with
      | Raise e => (Raise e, w)
      | Ok (mn, mx) =>
          if date_gtb mx (first_reading w)
          then (Ok (mn, second_reading w),
                mkWorld (clock w) (S (S (ticks w))) (session_log w))
          else (Ok (mn, mx), mkWorld (clock w) (S (ticks w)) (session_log w))
      end
  end.
Proof.
  unfold get_ar_dates, ar_rule_table, bind, lift, ret, utcnow, rbind,
    first_reading, second_reading.
  cbn [LegalTypes.value].
  rewrite date_new_jan1, date_new_dec31.
  destruct (year_ok y) eqn:Hy; [ | reflexivity].
  destruct (column_eq (legal_type self) "CP").
  - destruct (y =? 2020).
    + destruct (date_new (y + 1) 10 31); cbn; [ | reflexivity].
      destruct (date_gtb _ _); reflexivity.
    + destruct (date_new (y + 1) 4 30); cbn; [ | reflexivity].
      destruct (date_gtb _ _); reflexivity.
  - destruct (column_eq (legal_type self) "BEN").
    + destruct (founding_date self) as [fd | ]; cbn; [ | reflexivity].
      destruct (date_new y (month (to_date fd)) (day (to_date fd)))
        as [mn | e] eqn:Hmn; cbn; [ | reflexivity].
      apply date_new_inv in Hmn. destruct Hmn as [-> Hchk].
      rewrite date_add_days_only by (first [exact Hchk | lia]).
      destruct (date_add_days _ 60); cbn; [ | reflexivity].
      destruct (date_gtb _ _); reflexivity.
    + cbn. destruct (date_gtb _ _); reflexivity.
Qed.

(** When the target year is no year of the calendar the rule table has no
    window either. *)
Lemma ar_rule_table_bad_year (self : Business) (y : Z) :
  year_ok y = false -> returned (ar_rule_table self y) = None.
Proof.
  intros Hy. unfold ar_rule_table, rbind.
  rewrite date_new_jan1, Hy.
  destruct (column_eq _ "CP"); [reflexivity | ].
  destruct (column_eq _ "BEN"); [ | reflexivity].
  destruct (founding_date self); cbn; [ | reflexivity].
  now rewrite date_new_bad_year.
Qed.

(** C1. For every business and target year, [get_ar_dates] returns a window
    exactly when the rule table defines one, and the window returned is the
    one of the table with its maximum clamped: for legal type CP, January 1
    of the target year to April 30 of the following year (October 31 when
    the target year is 2020); for BEN, the founding month and day in the
    target year to 60 days later; for every other legal type, January 1 to
    December 31 of the target year. *)
Theorem get_ar_dates_rule_table (self : Business) (y : Z) (w : World) :
  returned (fst (get_ar_dates self y w))
  = option_map (clamp_to_today w) (returned (ar_rule_table self y)).
Proof.
  rewrite get_ar_dates_unfold, date_new_jan1, date_new_dec31.
  destruct (year_ok y) eqn:Hy.
  - destruct (ar_rule_table self y) as [[mn mx] | e]; cbn; [ | reflexivity].
    destruct (date_gtb mx (first_reading w)); reflexivity.
  - now rewrite ar_rule_table_bad_year.
Qed.

Example coop_2020 :
  ar_rule_table (business_of "CP" (midnight 1999 6 1)) 2020
  = Ok (mkdate 2020 1 1, mkdate 2021 10 31).
Proof. reflexivity. Qed.

Example coop_2021 :
  ar_rule_table (business_of "CP" (midnight 1999 6 1)) 2021
  = Ok (mkdate 2021 1 1, mkdate 2022 4 30).
Proof. reflexivity. Qed.

Example benefit_company_march_15 :
  ar_rule_table (business_of "BEN" (midnight 2019 3 15)) 2021
  = Ok (mkdate 2021 3 15, mkdate 2021 5 14).
Proof. reflexivity. Qed.

Lemma ar_rule_table_year_ok (self : Business) (y : Z) (window : date * date) :
  ar_rule_table self y = Ok window -> year_ok y = true.
Proof.
  intros H. destruct (year_ok y) eqn:Hy; [reflexivity | ].
  apply (ar_rule_table_bad_year self) in Hy. rewrite H in Hy. discriminate.
Qed.

(** C2. Whenever the rule table yields a window, [get_ar_dates] returns, and
    the maximum it returns is not later than the current date, which is the
    date of the latest reading of the clock; a maximum of the rule table
    that is later than the current date is returned as the current date. *)
Theorem get_ar_dates_max_not_after_today
        (self : Business) (y : Z) (w : World) (mn mx0 : date) :
  ar_rule_table self y = Ok (mn, mx0) ->
  exists (mx : date) (w' : World),
    get_ar_dates self y w = (Ok (mn, mx), w')
    /\ date_leb mx (today w') = true
    /\ (date_gtb mx0 (today w') = true -> mx = today w').
Proof.
  intros Htable.
  pose proof (ar_rule_table_year_ok _ _ _ Htable) as Hy.
  rewrite get_ar_dates_unfold, date_new_jan1, date_new_dec31, Hy, Htable.
  destruct (date_gtb mx0 (first_reading w)) eqn:Hgt.
  - eexists; eexists; split; [reflexivity | ].
    unfold today; cbn. split; auto with dates.
  - eexists; eexists; split; [reflexivity | ].
    unfold today; cbn. fold (first_reading w). split; auto with dates.
    intros Hgt'. rewrite Hgt in Hgt'. discriminate.
Qed.

Lemma get_ar_dates_max_not_after_today_witness :
  exists (mx : date) (w' : World),
    get_ar_dates (business_of "CP" (midnight 1999 6 1)) 2020
                 (world_at (midnight 2021 3 1))
    = (Ok (mkdate 2020 1 1, mx), w')
    /\ date_leb mx (today w') = true
    /\ (date_gtb (mkdate 2021 10 31) (today w') = true -> mx = today w').
Proof.
  apply (get_ar_dates_max_not_after_today
           (business_of "CP" (midnight 1999 6 1)) 2020
           (world_at (midnight 2021 3 1)) (mkdate 2020 1 1)
           (mkdate 2021 10 31)).
  reflexivity.
Defined.

(** ** Totality of the window computation *)

Section Ordinals.

Lemma check_fields_bounds (y m d : Z) :
  _check_date_fields y m d = true ->
  1 <= y <= 9999 /\ 1 <= m <= 12 /\ 1 <= d <= _days_in_month y m.
Proof.
  unfold _check_date_fields, MINYEAR, MAXYEAR. intros H.
  repeat (apply andb_prop in H; destruct H as [H ?]).
  repeat match goal with
         | E : (_ <=? _) = true |- _ => apply Z.leb_le in E
         end.
  lia.
Qed.

Lemma check_fields_of_bounds (y m d : Z) :
  1 <= y <= 9999 -> 1 <= m <= 12 -> 1 <= d <= _days_in_month y m ->
  _check_date_fields y m d = true.
Proof.
  unfold _check_date_fields, MINYEAR, MAXYEAR. intros Hy Hm Hd.
  repeat (apply andb_true_intro; split); apply Z.leb_le; lia.
Qed.

Ltac each_month m :=
  let H := fresh in
  assert (H : m = 1 \/ m = 2 \/ m = 3 \/ m = 4 \/ m = 5 \/ m = 6 \/ m = 7
              \/ m = 8 \/ m = 9 \/ m = 10 \/ m = 11 \/ m = 12) by lia;
  repeat (destruct H as [H | H]; [subst m | ]); [ .. | subst m].

(** The ordinal of a date of the calendar lies within its year. *)
Lemma ymd2ord_bounds (y m d : Z) :
  _check_date_fields y m d = true ->
  _days_before_year y < _ymd2ord y m d <= _days_before_year y + 366.
Proof.
  intros H. apply check_fields_bounds in H. destruct H as (Hy & Hm & Hd).
  unfold _ymd2ord, _days_before_month, _days_in_month in *.
  generalize dependent (_days_before_year y). intros b.
  each_month m; destruct (_is_leap y);
    vm_compute (table _ _) in *; cbn in *; lia.
Qed.

Lemma days_before_year_bounds (y : Z) :
  1 <= y <= 9998 -> 0 <= _days_before_year y <= 3651400.
Proof.
  unfold _days_before_year. intros Hy. cbn zeta.
  Z.div_mod_to_equations. lia.
Qed.

(** Sixty days after a date of a year up to 9998 is a date of the
    calendar. *)
Lemma add_60_days_in_range (y m d : Z) :
  _check_date_fields y m d = true -> y <= 9998 ->
  exists r, date_add_days (mkdate y m d) 60 = Ok r.
Proof.
  intros H Hy.
  pose proof (ymd2ord_bounds _ _ _ H) as Hord.
  apply check_fields_bounds in H.
  pose proof (days_before_year_bounds y ltac:(lia)) as Hdby.
  unfold date_add_days, toordinal, _MAXORDINAL. cbn [year month day].
  destruct (Z.ltb_spec 0 (_ymd2ord y m d + 60)); [ | lia].
  destruct (Z.leb_spec (_ymd2ord y m d + 60) 3652059); [ | lia].
  cbn. eauto.
Qed.

End Ordinals.

Lemma date_new_ok (y m d : Z) :
  _check_date_fields y m d = true -> date_new y m d = Ok (mkdate y m d).
Proof. unfold date_new. now intros ->. Qed.

Lemma year_ok_iff (y : Z) : year_ok y = true <-> 1 <= y <= 9999.
Proof.
  unfold year_ok, MINYEAR, MAXYEAR.
  rewrite andb_true_iff, !Z.leb_le. reflexivity.
Qed.

Lemma check_fields_split (y m d : Z) :
  _check_date_fields y m d = year_ok y && day_exists_in y m d.
Proof.
  unfold _check_date_fields, year_ok, day_exists_in.
  now rewrite !andb_assoc.
Qed.

Lemma column_eq_true (column : option string) (literal : string) :
  column_eq column literal = true <-> column = Some literal.
Proof.
  destruct column as [s | ]; cbn.
  - rewrite String.eqb_eq. split; [now intros -> | now intros [= ->]].
  - split; discriminate.
Qed.

(** The rule table defines a window for every year from 1 to 9998, given,
    for a benefit company, a founding date whose month and day exist in
    that year. *)
Lemma ar_rule_table_defined (self : Business) (y : Z) :
  1 <= y <= 9998 ->
  (legal_type self = Some "BEN" ->
   exists fd, founding_date self = Some fd
              /\ day_exists_in y (month (to_date fd)) (day (to_date fd))
                 = true) ->
  exists window, ar_rule_table self y = Ok window.
Proof.
  intros Hy Hben.
  assert (Hyok : year_ok y = true) by (apply year_ok_iff; lia).
  assert (Hnext : year_ok (y + 1) = true) by (apply year_ok_iff; lia).
  unfold ar_rule_table, rbind.
  rewrite date_new_jan1, date_new_dec31, Hyok.
  destruct (column_eq (legal_type self) "CP").
  - destruct (y =? 2020);
      rewrite date_new_ok
        by (rewrite check_fields_split, Hnext; reflexivity);
      eauto.
  - destruct (column_eq (legal_type self) "BEN") eqn:Hb; [ | eauto].
    apply column_eq_true in Hb.
    destruct (Hben Hb) as (fd & -> & Hday). cbn [attribute_of].
    assert (Hchk : _check_date_fields y (month (to_date fd))
                                      (day (to_date fd)) = true)
      by (now rewrite check_fields_split, Hyok, Hday).
    rewrite (date_new_ok _ _ _ Hchk).
    destruct (add_60_days_in_range _ _ _ Hchk) as [r ->]; [lia | eauto].
Qed.

(** A founding date of February 29 is no date of a year that is not a leap
    year: the call raises, whatever the target year. *)
Lemma february_29_raises (self : Business) (y : Z) (w : World)
      (fd : datetime) :
  legal_type self = Some "BEN" ->
  founding_date self = Some fd ->
  month (to_date fd) = 2 -> day (to_date fd) = 29 ->
  _is_leap y = false ->
  raises (fst (get_ar_dates self y w)).
Proof.
  intros Hben Hfd Hm Hd Hleap. exists ValueError.
  rewrite get_ar_dates_unfold, date_new_jan1, date_new_dec31.
  destruct (year_ok y); [ | reflexivity].
  unfold ar_rule_table. rewrite Hben, Hfd. cbn [column_eq String.eqb].
  cbn. rewrite Hm, Hd.
  unfold date_new, _check_date_fields, _days_in_month. rewrite Hleap.
  cbn. rewrite !andb_false_r. reflexivity.
Qed.

(** C9, as amended. [get_ar_dates] is not total for benefit companies: for
    some business of legal type BEN whose founding date is a February 29
    and some target year of the calendar that is not a leap year, the call
    raises instead of returning a window.  It returns a window for every
    target year from 1 to 9998, given, for a benefit company, a founding
    date whose month and day exist in the target year. *)
Theorem get_ar_dates_totality :
  (exists (self : Business) (y : Z) (w : World) (fd : datetime),
      legal_type self = Some "BEN"
      /\ founding_date self = Some fd
      /\ month (to_date fd) = 2 /\ day (to_date fd) = 29
      /\ 1 <= y <= 9999 /\ _is_leap y = false
      /\ raises (fst (get_ar_dates self y w)))
  /\ (forall (self : Business) (y : Z) (w : World),
         1 <= y <= 9998 ->
         (legal_type self = Some "BEN" ->
          exists fd, founding_date self = Some fd
                     /\ day_exists_in y (month (to_date fd))
                                      (day (to_date fd)) = true) ->
         exists (window : date * date) (w' : World),
           get_ar_dates self y w = (Ok window, w')).
Proof.
  split.
  - exists (business_of "BEN" (midnight 2020 2 29)), 2021,
      (world_at (midnight 2026 11 4)), (midnight 2020 2 29).
    repeat match goal with |- _ /\ _ => split end;
      try reflexivity; try lia.
    now apply (february_29_raises _ _ _ (midnight 2020 2 29)).
  - intros self y w Hy Hben.
    destruct (ar_rule_table_defined self y Hy Hben) as [[mn mx] Htable].
    rewrite get_ar_dates_unfold, date_new_jan1, date_new_dec31, Htable.
    replace (year_ok y) with true by (symmetry; apply year_ok_iff; lia).
    destruct (date_gtb mx (first_reading w)); eauto.
Qed.

Lemma get_ar_dates_totality_witness :
  exists (window : date * date) (w' : World),
    get_ar_dates (business_of "BEN" (midnight 2019 3 15)) 2021
                 (world_at (midnight 2026 11 4))
    = (Ok window, w').
Proof.
  apply (proj2 get_ar_dates_totality
               (business_of "BEN" (midnight 2019 3 15)) 2021
               (world_at (midnight 2026 11 4))).
  - lia.
  - intros _. exists (midnight 2019 3 15). split; reflexivity.
Defined.

(** C9, as stated, fails at the end of the calendar: the founding month and
    day of this benefit company exist in the target year 9999, and the
    call raises, because sixty days after the minimum date is no date. *)
Lemma get_ar_dates_not_total_at_9999 :
  day_exists_in 9999 12 1 = true
  /\ date_new 9999 12 1 = Ok (mkdate 9999 12 1)
  /\ fst (get_ar_dates (business_of "BEN" (midnight 2000 12 1)) 9999
                       (world_at (midnight 2026 11 4)))
     = Raise OverflowError.
Proof. repeat split. Qed.

(** ** Empty windows *)

Lemma date_ltb_trans (a b c : date) :
  date_ltb a b = true -> date_ltb b c = true -> date_ltb a c = true.
Proof. rewrite !date_ltb_iff. lia. Qed.

(** C10. The window returned can be empty.  For every business that is not
    a benefit company and every target year from 1 to 9998 whose January 1
    is after the current date, the minimum returned is strictly later than
    the maximum returned; and so it is for a benefit company whose
    anniversary in the target year is after the current date. *)
Theorem get_ar_dates_window_can_be_empty :
  (forall (self : Business) (y : Z) (w : World),
      column_eq (legal_type self) "BEN" = false ->
      1 <= y <= 9998 ->
      date_ltb (first_reading w) (mkdate y 1 1) = true ->
      date_ltb (second_reading w) (mkdate y 1 1) = true ->
      exists mn mx : date,
        fst (get_ar_dates self y w) = Ok (mn, mx)
        /\ date_ltb mx mn = true)
  /\ (exists (self : Business) (y : Z) (w : World) (mn mx : date),
        legal_type self = Some "BEN"
        /\ fst (get_ar_dates self y w) = Ok (mn, mx)
        /\ date_ltb mx mn = true).
Proof.
  split.
  - intros self y w Hben Hy H1 H2.
    assert (Hyok : year_ok y = true) by (apply year_ok_iff; lia).
    assert (Hnext : year_ok (y + 1) = true) by (apply year_ok_iff; lia).
    rewrite get_ar_dates_unfold, date_new_jan1, date_new_dec31, Hyok.
    unfold ar_rule_table, rbind.
    rewrite Hben, date_new_jan1, date_new_dec31, Hyok.
    assert (Hclamp : forall mx0 : date,
               date_ltb (mkdate y 1 1) mx0 = true ->
               date_gtb mx0 (first_reading w) = true)
      by (intros mx0 Hlt; unfold date_gtb; eapply date_ltb_trans; eauto).
    destruct (column_eq (legal_type self) "CP");
      [destruct (y =? 2020);
       rewrite date_new_ok
         by (rewrite check_fields_split, Hnext; reflexivity) | ];
      rewrite Hclamp by (apply date_ltb_iff; cbn; lia);
      eexists; eexists; (split; [reflexivity | exact H2]).
  - exists (business_of "BEN" (midnight 2019 12 15)), 2026,
      (world_at (midnight 2026 11 4)), (mkdate 2026 12 15),
      (mkdate 2026 11 4).
    repeat split.
Qed.

Lemma get_ar_dates_window_can_be_empty_witness :
  exists mn mx : date,
    fst (get_ar_dates (business_of "BC" (midnight 2019 6 1)) 2030
                      (world_at (midnight 2026 11 4)))
    = Ok (mn, mx)
    /\ date_ltb mx mn = true.
Proof.
  apply (proj1 get_ar_dates_window_can_be_empty
               (business_of "BC" (midnight 2019 6 1)) 2030
               (world_at (midnight 2026 11 4))).
  - reflexivity.
  - lia.
  - reflexivity.
  - reflexivity.
Defined.

(** ** Good standing *)

#[local] Arguments datetime_add : simpl never.

Lemma py_or_spec (self : Business) :
  py_or (last_ar_date self) (founding_date self)
  = last_ar_date_or_founding_date self.
Proof.
  unfold py_or, last_ar_date_or_founding_date.
  destruct (last_ar_date self); reflexivity.
Qed.

(** What a call of [good_standing] does, case by case. *)
Lemma good_standing_unfold (self : Business) (w : World) :
  good_standing self w =
  match last_ar_date_or_founding_date self with
  | None => (Raise TypeError, w)
  | Some base =>
      match datetime_add base grace_period with
      | Raise e => (Raise e, w)
      | Ok due =>
          (Ok (datetime_gtb due (now w)),
           mkWorld (clock w) (S (ticks w)) (session_log w))
      end
  end.
Proof.
  unfold good_standing. rewrite py_or_spec.
  destruct (last_ar_date_or_founding_date self) as [base | ];
    [ | reflexivity].
  unfold bind, lift, utcnow, ret, grace_period, now.
  destruct (datetime_add base (mkdelta 1 2 1)); reflexivity.
Qed.

(** C3. [good_standing] is true if and only if the last annual-report date
    (the founding date when there is none) plus 1 year, 2 months and 1 day
    is strictly later than the current time, and false if and only if that
    sum is not later.  The answer depends on no other column of the
    business, and the call leaves the database session alone. *)
Theorem good_standing_iff (self : Business) (w : World) :
  (fst (good_standing self w) = Ok true <->
   exists base due : datetime,
     last_ar_date_or_founding_date self = Some base
     /\ datetime_add base grace_period = Ok due
     /\ datetime_gtb due (now w) = true)
  /\ (fst (good_standing self w) = Ok false <->
      exists base due : datetime,
        last_ar_date_or_founding_date self = Some base
        /\ datetime_add base grace_period = Ok due
        /\ datetime_gtb due (now w) = false)
  /\ (forall other : Business,
         last_ar_date other = last_ar_date self ->
         founding_date other = founding_date self ->
         good_standing other w = good_standing self w)
  /\ session_log (snd (good_standing self w)) = session_log w.
Proof.
  repeat split.
  - rewrite good_standing_unfold.
    destruct (last_ar_date_or_founding_date self) as [base | ];
      [ | discriminate].
    destruct (datetime_add base grace_period) as [due | e] eqn:Hdue;
      [ | discriminate].
    cbn. intros [= H]. exists base, due. auto.
  - intros (base & due & Hb & Hd & Hgt).
    now rewrite good_standing_unfold, Hb, Hd, Hgt.
  - rewrite good_standing_unfold.
    destruct (last_ar_date_or_founding_date self) as [base | ];
      [ | discriminate].
    destruct (datetime_add base grace_period) as [due | e] eqn:Hdue;
      [ | discriminate].
    cbn. intros [= H]. exists base, due. auto.
  - intros (base & due & Hb & Hd & Hgt).
    now rewrite good_standing_unfold, Hb, Hd, Hgt.
  - intros other Hl Hf. rewrite !good_standing_unfold.
    unfold last_ar_date_or_founding_date. now rewrite Hl, Hf.
  - rewrite good_standing_unfold.
    destruct (last_ar_date_or_founding_date self) as [base | ];
      [ | reflexivity].
    destruct (datetime_add base grace_period); reflexivity.
Qed.

Lemma good_standing_iff_witness :
  fst (good_standing (business_of "BC" (midnight 2025 9 4))
                     (world_at (midnight 2026 11 4)))
  = Ok true
  /\ fst (good_standing (business_of "BC" (midnight 2025 9 3))
                        (world_at (midnight 2026 11 4)))
     = Ok false.
Proof.
  split.
  - apply (proj2 (proj1 (good_standing_iff
                           (business_of "BC" (midnight 2025 9 4))
                           (world_at (midnight 2026 11 4))))).
    exists (midnight 2025 9 4), (midnight 2026 11 5).
    repeat split.
  - apply (proj2 (proj1 (proj2 (good_standing_iff
                                  (business_of "BC" (midnight 2025 9 3))
                                  (world_at (midnight 2026 11 4)))))).
    exists (midnight 2025 9 3), (midnight 2026 11 4).
    repeat split.
Defined.

(** ** Identifiers *)

Section Slices.

Lemma substring_0_0 (s : string) : substring 0 0 s = "".
Proof. destruct s; reflexivity. Qed.

Lemma substring_whole (s : string) : substring 0 (String.length s) s = s.
Proof. induction s as [ | c s IH]; cbn; [reflexivity | now rewrite IH]. Qed.

(** Cutting a string at [n] gives two parts that make it up again. *)
Lemma substring_cut (s : string) (n : nat) :
  (n <= String.length s)%nat ->
  (substring 0 n s ++ substring n (String.length s - n) s)%string = s.
Proof.
  revert n. induction s as [ | c s IH]; intros [ | n] Hn; cbn in *.
  - reflexivity.
  - lia.
  - now rewrite substring_whole.
  - rewrite IH by lia. reflexivity.
Qed.

Lemma substring_length (s : string) (n m : nat) :
  (n + m <= String.length s)%nat -> String.length (substring n m s) = m.
Proof.
  revert n m. induction s as [ | c s IH]; intros [ | n] [ | m] Hn;
    cbn in *; try reflexivity; try lia.
  - now rewrite IH by lia.
  - now rewrite IH by lia.
  - now rewrite IH by lia.
Qed.

Lemma len_nat (s : string) : len s = Z.of_nat (String.length s).
Proof. reflexivity. Qed.

(** [s[:-7]] and [s[-7:]] of a string of 7 characters or more. *)
Lemma slice_to_minus7 (s : string) :
  7 <= len s -> slice_to s (-7) = leading s.
Proof.
  unfold slice_to, leading, clip. rewrite len_nat. intros H.
  f_equal. cbn [Z.ltb Z.compare]. lia.
Qed.

Lemma slice_from_minus7 (s : string) :
  7 <= len s -> slice_from s (-7) = trailing7 s.
Proof.
  unfold slice_from, trailing7, clip. rewrite len_nat. intros H.
  cbn [Z.ltb Z.compare].
  replace (Z.to_nat (Z.max (-7 + Z.of_nat (String.length s)) 0))
    with (String.length s - 7)%nat by lia.
  f_equal. lia.
Qed.

(** [leading] and [trailing7] are what their names say. *)
Lemma leading_trailing7 (s : string) :
  7 <= len s ->
  (leading s ++ trailing7 s)%string = s
  /\ String.length (trailing7 s) = 7%nat.
Proof.
  rewrite len_nat. intros H. unfold leading, trailing7. split.
  - pose proof (substring_cut s (String.length s - 7) ltac:(lia)) as Hcut.
    replace (String.length s - (String.length s - 7))%nat with 7%nat
      in Hcut by lia.
    exact Hcut.
  - apply substring_length. lia.
Qed.

(** [s[:2] == 'NR'] says that [s] starts with [NR]. *)
Lemma slice_to_2_NR (s : string) :
  String.eqb (slice_to s 2) "NR" = true <-> starts_with_NR s.
Proof.
  rewrite String.eqb_eq. unfold starts_with_NR.
  destruct s as [ | a [ | b s]].
  - split; [discriminate | intros [rest H]; discriminate].
  - split; [ | intros [rest H]; discriminate].
    unfold slice_to, clip. cbn. discriminate.
  - assert (Hcut : slice_to (String a (String b s)) 2
                   = String a (String b ""))
      by (unfold slice_to, clip; rewrite len_nat;
          cbn [String.length Z.ltb Z.compare];
          replace (Z.to_nat (Z.min 2 (Z.of_nat (S (S (String.length s))))))
            with 2%nat by lia;
          cbn; now rewrite substring_0_0).
    rewrite Hcut. split.
    + intros [= -> ->]. now exists s.
    + intros [rest [= -> -> _]]. reflexivity.
Qed.

Lemma in_tuple_In (s : string) (t : list string) :
  in_tuple s t = true <-> In s t.
Proof.
  unfold in_tuple. rewrite existsb_exists. split.
  - intros (x & Hx & Heq). apply String.eqb_eq in Heq. now subst.
  - intros H. exists s. split; [exact H | apply String.eqb_refl].
Qed.

End Slices.

(** C4. [validate_identifier] accepts every string that starts with [NR];
    any other string it accepts exactly when the string has 9 characters or
    more, its trailing 7 characters parse as an integer other than zero,
    and what is before them is one of the known prefixes.  [CP1234567] is
    valid, [CP0000000] is not, [NRxyz] is. *)
Theorem validate_identifier_spec (s : string) :
  (starts_with_NR s -> validate_identifier s = true)
  /\ (~ starts_with_NR s ->
      (validate_identifier s = true <->
       9 <= len s
       /\ (exists d : Z, int (trailing7 s) = Ok d /\ d <> 0)
       /\ In (leading s) known_prefixes))
  /\ validate_identifier "CP1234567" = true
  /\ validate_identifier "CP0000000" = false
  /\ validate_identifier "NRxyz" = true.
Proof.
  split; [ | split; [ | repeat split]].
  - intros HNR. unfold validate_identifier.
    apply slice_to_2_NR in HNR. now rewrite HNR.
  - intros HNR. unfold validate_identifier.
    destruct (String.eqb (slice_to s 2) "NR") eqn:E;
      [apply slice_to_2_NR in E; contradiction | ].
    destruct (Z.ltb_spec (len s) 9) as [Hshort | Hlong].
    + split; [discriminate | intros (H & _); lia].
    + rewrite slice_from_minus7, slice_to_minus7 by lia.
      destruct (int (trailing7 s)) as [d | e].
      * destruct (Z.eqb_spec d 0) as [-> | Hd].
        -- split; [discriminate | ].
           intros (_ & (d & [= <-] & Hd) & _). contradiction.
        -- destruct (in_tuple (leading s) ["CP"; "XCP"; "BC"]) eqn:Hin; cbn.
           ++ apply in_tuple_In in Hin. split; [ | reflexivity].
              intros _. repeat split; eauto.
           ++ split; [discriminate | ].
              intros (_ & _ & Hp).
              pose proof (proj2 (in_tuple_In (leading s) known_prefixes) Hp)
                as Hp'.
              unfold known_prefixes in Hp'. congruence.
      * split; [discriminate | ].
        intros (_ & (d & Hd & _) & _). discriminate.
Qed.

Lemma validate_identifier_spec_witness :
  validate_identifier "NR 12" = true
  /\ validate_identifier "XCP0012345" = true.
Proof.
  split.
  - apply (proj1 (validate_identifier_spec "NR 12")).
    exists " 12". reflexivity.
  - apply (proj1 (proj2 (validate_identifier_spec "XCP0012345"))).
    + intros [rest H]. discriminate H.
    + split; [cbn; lia | split].
      * exists 12345. split; [reflexivity | lia].
      * right. left. reflexivity.
Defined.

(** C5 fails on the code: an identifier whose trailing 7 characters are a
    sign and six digits is accepted, although it does not start with [NR]
    and its trailing 7 characters are not all digits. *)
Theorem validate_identifier_accepts_signed_suffix :
  validate_identifier "CP+123456" = true
  /\ ~ starts_with_NR "CP+123456"
  /\ trailing7 "CP+123456" = "+123456"
  /\ int "+123456" = Ok 123456
  /\ all_digits (trailing7 "CP+123456") = false.
Proof.
  repeat split. intros [rest H]. discriminate H.
Qed.

(** C6. Assigning [value] to the identifier of a business raises the
    [invalid-identifier-format] error if and only if [validate_identifier]
    rejects [value].  When the value is accepted the call returns and the
    stored identifier is that value, every other column as before; when it
    is rejected the business is as before. *)
Theorem identifier_setter_spec (value : string) (self : Business) :
  (fst (identifier_setter value self)
   = Raise (BusinessException "invalid-identifier-format" 406)
   <-> validate_identifier value = false)
  /\ (raises (fst (identifier_setter value self))
      <-> validate_identifier value = false)
  /\ (validate_identifier value = true ->
      identifier_setter value self = (Ok tt, set__identifier self value)
      /\ identifier (snd (identifier_setter value self)) = Some value)
  /\ (validate_identifier value = false ->
      snd (identifier_setter value self) = self).
Proof.
  unfold identifier_setter, raises.
  destruct (validate_identifier value); cbn.
  - repeat split; try discriminate. intros [e H]. discriminate H.
  - repeat split; try discriminate. eauto.
Qed.

Lemma identifier_setter_spec_witness :
  (identifier_setter "BC1234567" blank_business
   = (Ok tt, set__identifier blank_business "BC1234567")
   /\ identifier (snd (identifier_setter "BC1234567" blank_business))
      = Some "BC1234567")
  /\ snd (identifier_setter "BC0000000"
                            (set__identifier blank_business "BC1234567"))
     = set__identifier blank_business "BC1234567".
Proof.
  split.
  - apply (proj1 (proj2 (proj2 (identifier_setter_spec
                                  "BC1234567" blank_business)))).
    reflexivity.
  - apply (proj2 (proj2 (proj2 (identifier_setter_spec
                                  "BC0000000"
                                  (set__identifier blank_business
                                                   "BC1234567"))))).
    reflexivity.
Defined.

(** ** The dissolution validator *)

(** C8, as amended. The validator returns the 400 error, with its one
    entry saying that a valid business and filing are required, if and only
    if the business is missing or the filing document is missing or empty;
    otherwise it returns nothing; it never raises. *)
Theorem validate_spec (gettext : string -> string)
        (business : option Business) (con : option Dict) :
  (dissolution.validate gettext business con
   = Ok (Some (required_error gettext))
   <-> business = None \/ con = None \/ con = Some [])
  /\ (dissolution.validate gettext business con = Ok None
      <-> business <> None /\ con <> None /\ con <> Some [])
  /\ ~ raises (dissolution.validate gettext business con).
Proof.
  unfold dissolution.validate, required_error, raises.
  destruct business as [b | ]; destruct con as [[ | member members] | ];
    cbn; repeat split;
    try discriminate; try tauto; try congruence;
    try (now intros [e H]);
    try (intros [H | [H | H]]; discriminate H).
  all: intros (H & _); try discriminate H; congruence.
Qed.

Lemma validate_spec_witness :
  dissolution.validate (fun message => message) None
                       (Some [("header", JNull)])
  = Ok (Some (required_error (fun message => message)))
  /\ dissolution.validate (fun message => message) (Some blank_business)
                          (Some [("header", JNull)])
     = Ok None.
Proof.
  split.
  - apply (proj2 (proj1 (validate_spec (fun message => message) None
                                       (Some [("header", JNull)])))).
    left. reflexivity.
  - apply (proj2 (proj1 (proj2 (validate_spec
                                  (fun message => message)
                                  (Some blank_business)
                                  (Some [("header", JNull)]))))).
    repeat split; discriminate.
Defined.

(** C8, as stated, fails on an empty filing document: the business and the
    document are both there, and the validator returns the error. *)
Lemma validate_rejects_empty_filing :
  Some blank_business <> None
  /\ Some ([] : Dict) <> None
  /\ dissolution.validate (fun message => message) (Some blank_business)
                          (Some [])
     = Ok (Some (required_error (fun message => message))).
Proof. repeat split; discriminate. Qed.

(** * Further properties *)

(** ** The calendar: ordinals and dates *)

Lemma in_range (n : Z) (k : nat) :
  0 <= n < Z.of_nat k -> In n (map Z.of_nat (seq 0 k)).
Proof.
  intros H. apply in_map_iff. exists (Z.to_nat n). split; [lia | ].
  apply in_seq. lia.
Qed.

Lemma month_day_of_ok (leapyear : bool) (n : Z) :
  0 <= n < 365 -> month_day_ok leapyear n = true.
Proof.
  intros H.
  assert (Hall : forallb (fun n => month_day_ok true n && month_day_ok false n)
                   (map Z.of_nat (seq 0 365)) = true) by (vm_compute; reflexivity).
  rewrite forallb_forall in Hall.
  specialize (Hall n (in_range n 365 H)).
  apply andb_prop in Hall. destruct leapyear; tauto.
Qed.

Lemma ord2ymd_unfold (n0 : Z) :
  _ord2ymd n0 =
  let n := n0 - 1 in
  let n400 := n / _DI400Y in
  let n := n mod _DI400Y in
  let n100 := n / _DI100Y in
  let n := n mod _DI100Y in
  let n4 := n / _DI4Y in
  let n := n mod _DI4Y in
  let n1 := n / 365 in
  let n := n mod 365 in
  let year := n400 * 400 + 1 + n100 * 100 + n4 * 4 + n1 in
  if (n1 =? 4) || (n100 =? 4) then (year - 1, 12, 31)
  else
    let '(m, d) := month_day_of ((n1 =? 3) && (negb (n4 =? 24) || (n100 =? 3))) n in
    (year, m, d).
Proof.
  unfold _ord2ymd, month_day_of. cbv zeta.
  destruct (_ || _); [reflexivity | ].
  destruct (_ <? _); reflexivity.
Qed.

Lemma days_before_year_succ (y : Z) :
  _days_before_year (y + 1) = _days_before_year y + 365 + (if _is_leap y then 1 else 0).
Proof.
  unfold _days_before_year, _is_leap. cbv zeta.
  replace (y + 1 - 1) with y by lia.
  destruct (Z.eqb_spec (y mod 4) 0); destruct (Z.eqb_spec (y mod 100) 0);
    destruct (Z.eqb_spec (y mod 400) 0); cbn [andb orb negb];
    Z.div_mod_to_equations; lia.
Qed.

Lemma days_before_year_mono (y y' : Z) :
  y <= y' -> _days_before_year y <= _days_before_year y'.
Proof.
  unfold _days_before_year. cbv zeta. intros H.
  Z.div_mod_to_equations. lia.
Qed.


Lemma year_shape (a b c e : Z) :
  0 <= a -> 0 <= b <= 3 -> 0 <= c <= 24 -> 0 <= e <= 3 ->
  _days_before_year (400 * a + 100 * b + 4 * c + e + 1)
  = 146097 * a + 36524 * b + 1461 * c + 365 * e
  /\ _is_leap (400 * a + 100 * b + 4 * c + e + 1)
     = (e =? 3) && (negb (c =? 24) || (b =? 3)).
Proof.
  intros Ha Hb Hc He. split.
  - unfold _days_before_year. cbv zeta. Z.div_mod_to_equations. lia.
  - unfold _is_leap.
    destruct (Z.eqb_spec e 3); destruct (Z.eqb_spec c 24);
      destruct (Z.eqb_spec b 3); cbn [andb orb negb];
      repeat match goal with
             | |- context [?x =? 0] => destruct (Z.eqb_spec x 0)
             end; cbn [andb orb negb]; try reflexivity;
      exfalso; Z.div_mod_to_equations; lia.
Qed.

Ltac small_bools :=
  cbn [Z.eqb Z.ltb Z.leb Z.compare Pos.compare Pos.compare_cont Pos.eqb
       andb orb negb].

Ltac small_bools_in H :=
  cbn [Z.eqb Z.ltb Z.leb Z.compare Pos.compare Pos.compare_cont Pos.eqb
       andb orb negb] in H.

Lemma december_31 (y : Z) :
  _is_leap y = true ->
  _ymd2ord y 12 31 = _days_before_year y + 366
  /\ _days_in_month y 12 = 31.
Proof.
  intros Hl. unfold _ymd2ord, _days_before_month, _days_in_month.
  rewrite Hl. split; [ | reflexivity].
  change (table _DAYS_BEFORE_MONTH 12) with 334.
  change ((2 <? 12) && true) with true. cbv iota. lia.
Qed.

Lemma ord2ymd_correct (n : Z) :
  1 <= n ->
  let '(y, m, d) := _ord2ymd n in
  _ymd2ord y m d = n /\ 1 <= y /\ 1 <= m <= 12 /\ 1 <= d <= _days_in_month y m.
Proof.
  intros Hn. rewrite ord2ymd_unfold. cbv zeta.
  unfold _DI400Y, _DI100Y, _DI4Y.
  remember (n - 1) as n0 eqn:En0.
  remember (n0 / 146097) as n400 eqn:E400.
  remember (n0 mod 146097) as r eqn:Er.
  remember (r / 36524) as n100 eqn:E100.
  remember (r mod 36524) as r2 eqn:Er2.
  remember (r2 / 1461) as n4 eqn:E4.
  remember (r2 mod 1461) as r3 eqn:Er3.
  remember (r3 / 365) as n1 eqn:E1.
  remember (r3 mod 365) as r4 eqn:Er4.
  assert (Hcut : n = n0 + 1 /\ 0 <= n0
                 /\ n0 = 146097 * n400 + r /\ 0 <= r < 146097
                 /\ r = 36524 * n100 + r2 /\ 0 <= r2 < 36524
                 /\ r2 = 1461 * n4 + r3 /\ 0 <= r3 < 1461
                 /\ r3 = 365 * n1 + r4 /\ 0 <= r4 < 365)
    by (subst n400 r n100 r2 n4 r3 n1 r4; Z.div_mod_to_equations; lia).
  clear En0 E400 Er E100 Er2 E4 Er3 E1 Er4.
  assert (Hn400 : 0 <= n400) by lia.
  destruct (Z.eqb_spec n1 4) as [E1 | E1];
    [ | destruct (Z.eqb_spec n100 4) as [E100 | E100]]; cbn [orb].
  - (* the last day of the fourth year of a cycle *)
    destruct (year_shape n400 n100 n4 3) as [Hd Hl]; try lia.
    replace (n400 * 400 + 1 + n100 * 100 + n4 * 4 + n1 - 1)
      with (400 * n400 + 100 * n100 + 4 * n4 + 3 + 1) by lia.
    destruct (Z.eqb_spec n4 24) as [E24 | E24]; [lia | ].
    destruct (december_31 _ Hl) as [Hord Hdim].
    rewrite Hord, Hd. lia.
  - (* the last day of a cycle of 400 years *)
    destruct (year_shape n400 3 24 3) as [Hd Hl]; try lia.
    replace (n400 * 400 + 1 + n100 * 100 + n4 * 4 + n1 - 1)
      with (400 * n400 + 100 * 3 + 4 * 24 + 3 + 1) by lia.
    destruct (december_31 _ Hl) as [Hord Hdim].
    rewrite Hord, Hd. lia.
  - destruct (year_shape n400 n100 n4 n1) as [Hd Hl]; try lia.
    replace (n400 * 400 + 1 + n100 * 100 + n4 * 4 + n1)
      with (400 * n400 + 100 * n100 + 4 * n4 + n1 + 1) by lia.
    pose proof (month_day_of_ok
                  ((n1 =? 3) && (negb (n4 =? 24) || (n100 =? 3))) r4
                  ltac:(lia)) as Hmd.
    unfold month_day_ok in Hmd.
    destruct (month_day_of _ r4) as [m d].
    unfold _ymd2ord, _days_before_month, _days_in_month.
    rewrite Hd, Hl.
    repeat (apply andb_prop in Hmd; destruct Hmd as [Hmd ?]).
    repeat match goal with
           | E : (_ <=? _) = true |- _ => apply Z.leb_le in E
           | E : (_ =? _) = true |- _ => apply Z.eqb_eq in E
           end.
    lia.
Qed.

Ltac split_month m :=
  let H := fresh in
  assert (H : m = 1 \/ m = 2 \/ m = 3 \/ m = 4 \/ m = 5 \/ m = 6 \/ m = 7
              \/ m = 8 \/ m = 9 \/ m = 10 \/ m = 11 \/ m = 12) by lia;
  repeat (destruct H as [H | H]; [subst m | ]); [ .. | subst m].

Lemma ymd2ord_in_year (y m d : Z) :
  1 <= m <= 12 -> 1 <= d <= _days_in_month y m ->
  _days_before_year y < _ymd2ord y m d <= _days_before_year (y + 1).
Proof.
  intros Hm Hd. rewrite days_before_year_succ.
  unfold _ymd2ord, _days_before_month, _days_in_month in *.
  generalize dependent (_days_before_year y). intros b.
  split_month m; destruct (_is_leap y);
    vm_compute (table _ _) in *; small_bools; small_bools_in Hd; lia.
Qed.

Lemma ymd2ord_months (y m d m' d' : Z) :
  1 <= m <= 12 -> 1 <= d <= _days_in_month y m ->
  1 <= m' <= 12 -> 1 <= d' <= _days_in_month y m' ->
  m < m' ->
  _ymd2ord y m d < _ymd2ord y m' d'.
Proof.
  intros Hm Hd Hm' Hd' Hlt.
  unfold _ymd2ord, _days_before_month, _days_in_month in *.
  generalize dependent (_days_before_year y). intros b.
  destruct (_is_leap y);
    split_month m; vm_compute (table _ _) in Hd; small_bools_in Hd;
    split_month m'; try lia;
    vm_compute (table _ _) in Hd'; vm_compute (table _ _);
    small_bools_in Hd'; small_bools; lia.
Qed.

(** The ordinal is strictly increasing along the order of the dates. *)
Lemma toordinal_lt (a b : date) :
  valid_date a -> valid_date b ->
  date_ltb a b = true -> toordinal a < toordinal b.
Proof.
  unfold valid_date, toordinal. intros Ha Hb Hlt.
  apply check_fields_bounds in Ha, Hb. apply date_ltb_iff in Hlt.
  destruct a as [y m d], b as [y' m' d']; cbn [year month day] in *.
  destruct Hlt as [Hy | [-> [Hm | [-> Hd]]]].
  - pose proof (ymd2ord_in_year y m d ltac:(lia) ltac:(lia)).
    pose proof (ymd2ord_in_year y' m' d' ltac:(lia) ltac:(lia)).
    pose proof (days_before_year_mono (y + 1) y' ltac:(lia)). lia.
  - apply ymd2ord_months; lia.
  - unfold _ymd2ord. lia.
Qed.

Lemma date_cmp_cases (a b : date) :
  date_ltb a b = true \/ a = b \/ date_ltb b a = true.
Proof.
  destruct a as [y m d], b as [y' m' d'].
  rewrite !date_ltb_iff. cbn [year month day].
  destruct (Z.lt_total y y') as [? | [-> | ?]]; [lia | | lia].
  destruct (Z.lt_total m m') as [? | [-> | ?]]; [lia | | lia].
  destruct (Z.lt_total d d') as [? | [-> | ?]]; [lia | | lia].
  right; left; reflexivity.
Qed.

Lemma toordinal_inj (a b : date) :
  valid_date a -> valid_date b -> toordinal a = toordinal b -> a = b.
Proof.
  intros Ha Hb Heq.
  destruct (date_cmp_cases a b) as [H | [H | H]]; [ | exact H | ].
  - pose proof (toordinal_lt a b Ha Hb H). lia.
  - pose proof (toordinal_lt b a Hb Ha H). lia.
Qed.

Lemma date_ltb_toordinal (a b : date) :
  valid_date a -> valid_date b ->
  (date_ltb a b = true <-> toordinal a < toordinal b).
Proof.
  intros Ha Hb. split; [now apply toordinal_lt | ].
  intros Hlt. destruct (date_cmp_cases a b) as [H | [H | H]].
  - exact H.
  - subst. lia.
  - pose proof (toordinal_lt b a Hb Ha H). lia.
Qed.

(** [fromordinal] gives the date of the calendar with that ordinal. *)
Lemma fromordinal_spec (n : Z) :
  1 <= n <= _MAXORDINAL ->
  valid_date (fromordinal n) /\ toordinal (fromordinal n) = n.
Proof.
  unfold _MAXORDINAL. intros Hn.
  pose proof (ord2ymd_correct n ltac:(lia)) as H.
  unfold fromordinal, valid_date, toordinal.
  destruct (_ord2ymd n) as [[y m] d]. cbn [year month day].
  destruct H as (Hord & Hy & Hm & Hd). split; [ | exact Hord].
  apply check_fields_of_bounds; try lia.
  pose proof (ymd2ord_in_year y m d Hm Hd) as Hin.
  assert (~ 10000 <= y); [ | lia].
  intros Hbig.
  pose proof (days_before_year_mono 10000 y Hbig) as Hmono.
  change (_days_before_year 10000) with 3652059 in Hmono. lia.
Qed.

Lemma fromordinal_toordinal (d : date) :
  valid_date d -> fromordinal (toordinal d) = d.
Proof.
  intros Hd.
  assert (Hrange : 1 <= toordinal d <= _MAXORDINAL).
  { unfold valid_date in Hd. pose proof Hd as Hb.
    apply check_fields_bounds in Hb.
    pose proof (ymd2ord_in_year (year d) (month d) (day d)
                                ltac:(lia) ltac:(lia)) as Hin.
    pose proof (days_before_year_mono 1 (year d) ltac:(lia)) as Hlo.
    pose proof (days_before_year_mono (year d + 1) 10000 ltac:(lia)) as Hhi.
    change (_days_before_year 1) with 0 in Hlo.
    change (_days_before_year 10000) with 3652059 in Hhi.
    unfold toordinal, _MAXORDINAL. lia. }
  destruct (fromordinal_spec _ Hrange) as [Hv Ho].
  now apply toordinal_inj.
Qed.

(** [d + timedelta(days=n)] on a date of the calendar. *)
Lemma date_add_days_spec (d r : date) (n : Z) :
  valid_date d ->
  date_add_days d n = Ok r ->
  valid_date r /\ toordinal r = toordinal d + n.
Proof.
  unfold date_add_days. intros Hd.
  destruct (Z.ltb_spec 0 (toordinal d + n)); [ | discriminate].
  destruct (Z.leb_spec (toordinal d + n) _MAXORDINAL); [ | discriminate].
  cbn [andb]. intros [= <-]. apply fromordinal_spec. lia.
Qed.

(** ** The shape of the annual-report window *)

Lemma date_ltb_false_iff (a b : date) :
  date_ltb a b = false <->
  ~ (year a < year b \/
     (year a = year b /\
      (month a < month b \/ (month a = month b /\ day a < day b)))).
Proof.
  rewrite <- date_ltb_iff. destruct (date_ltb a b); split; intros H;
    try reflexivity; try discriminate; try (intros H'; discriminate);
    exfalso; apply H; reflexivity.
Qed.

(** Turns the comparisons of dates of the goal and of the hypotheses into
    linear arithmetic over their fields. *)
Ltac date_order :=
  unfold date_leb, date_gtb in *;
  repeat match goal with
         | H : negb _ = true |- _ => apply negb_true_iff in H
         | H : negb _ = false |- _ => apply negb_false_iff in H
         | H : date_ltb _ _ = true |- _ => apply date_ltb_iff in H
         | H : date_ltb _ _ = false |- _ => apply date_ltb_false_iff in H
         | |- negb _ = true => apply negb_true_iff
         | |- negb _ = false => apply negb_false_iff
         | |- date_ltb _ _ = true => apply date_ltb_iff
         | |- date_ltb _ _ = false => apply date_ltb_false_iff
         end;
  cbn [year month day] in *.

Lemma date_new_valid (y m d : Z) (x : date) :
  date_new y m d = Ok x -> valid_date x /\ x = mkdate y m d.
Proof.
  intros H. apply date_new_inv in H. destruct H as [-> H].
  split; [exact H | reflexivity].
Qed.

(** A window of the rule table: two dates of the calendar, the minimum in
    the target year and strictly before the maximum. *)
Lemma ar_rule_table_shape (self : Business) (y : Z) (mn mx : date) :
  ar_rule_table self y = Ok (mn, mx) ->
  valid_date mn /\ valid_date mx /\ year mn = y
  /\ date_ltb mn mx = true
  /\ (legal_type self = Some "BEN" -> toordinal mx = toordinal mn + 60).
Proof.
  unfold ar_rule_table, rbind.
  destruct (column_eq (legal_type self) "CP") eqn:Hcp.
  - apply column_eq_true in Hcp.
    destruct (date_new y 1 1) as [a | ] eqn:Ha; [ | discriminate].
    apply date_new_valid in Ha. destruct Ha as [Hva ->].
    destruct (y =? 2020);
      (destruct (date_new (y + 1) _ _) as [b | ] eqn:Hb; [ | discriminate]);
      apply date_new_valid in Hb; destruct Hb as [Hvb ->];
      intros [= <- <-]; repeat split; auto;
      try (date_order; lia); rewrite Hcp; discriminate.
  - destruct (column_eq (legal_type self) "BEN") eqn:Hben.
    + destruct (attribute_of (founding_date self)) as [fd | ];
        [ | discriminate].
      destruct (date_new y _ _) as [a | ] eqn:Ha; [ | discriminate].
      apply date_new_valid in Ha. destruct Ha as [Hva ->].
      destruct (date_add_days _ 60) as [b | ] eqn:Hb; [ | discriminate].
      apply (date_add_days_spec _ _ _ Hva) in Hb. destruct Hb as [Hvb Hob].
      intros [= <- <-]. repeat split; auto.
      apply date_ltb_toordinal; auto. lia.
    + destruct (date_new y 1 1) as [a | ] eqn:Ha; [ | discriminate].
      apply date_new_valid in Ha. destruct Ha as [Hva ->].
      destruct (date_new y 12 31) as [b | ] eqn:Hb; [ | discriminate].
      apply date_new_valid in Hb. destruct Hb as [Hvb ->].
      intros [= <- <-]. repeat split; auto.
      * date_order; lia.
      * intros Hl. rewrite Hl in Hben. discriminate.
Qed.

(** What a call that returned did: the window of the rule table, and one
    reading of the clock or two. *)
Lemma get_ar_dates_returned (self : Business) (y : Z) (w w' : World)
      (mn mx : date) :
  get_ar_dates self y w = (Ok (mn, mx), w') ->
  exists mx0 : date,
    ar_rule_table self y = Ok (mn, mx0)
    /\ ((date_gtb mx0 (first_reading w) = true
         /\ mx = second_reading w
         /\ w' = mkWorld (clock w) (S (S (ticks w))) (session_log w))
        \/ (date_gtb mx0 (first_reading w) = false
            /\ mx = mx0
            /\ w' = mkWorld (clock w) (S (ticks w)) (session_log w))).
Proof.
  rewrite get_ar_dates_unfold.
  destruct (date_new y 1 1); [ | discriminate].
  destruct (date_new y 12 31); [ | discriminate].
  destruct (ar_rule_table self y) as [[mn0 mx0] | ]; [ | discriminate].
  destruct (date_gtb mx0 (first_reading w)) eqn:Hgt;
    intros [= <- <- <-]; exists mx0; split; auto.
Qed.

(** X1. The window [get_ar_dates] returns starts at a date of the calendar
    in the target year.  Its maximum is either the date of the second
    reading of the clock or, when the maximum was not clamped, a date of
    the calendar strictly after the minimum and not after the date first
    read; for a benefit company an unclamped maximum is exactly 60 days
    after the minimum. *)
Theorem get_ar_dates_window_shape
        (self : Business) (y : Z) (w : World) (mn mx : date) :
  fst (get_ar_dates self y w) = Ok (mn, mx) ->
  valid_date mn /\ year mn = y
  /\ (mx = second_reading w
      \/ (valid_date mx
          /\ date_ltb mn mx = true
          /\ date_leb mx (first_reading w) = true
          /\ (legal_type self = Some "BEN" ->
              toordinal mx = toordinal mn + 60))).
Proof.
  destruct (get_ar_dates self y w) as [r w'] eqn:Hrun. cbn [fst].
  intros ->. apply get_ar_dates_returned in Hrun.
  destruct Hrun as (mx0 & Htable & Hcases).
  apply ar_rule_table_shape in Htable.
  destruct Htable as (Hvmn & Hvmx & Hy & Hlt & Hben).
  repeat split; auto.
  destruct Hcases as [(_ & -> & _) | (Hgt & -> & _)]; [left; reflexivity | ].
  right. repeat split; auto with dates.
Qed.

Lemma get_ar_dates_window_shape_witness :
  valid_date (mkdate 2021 3 15) /\ year (mkdate 2021 3 15) = 2021
  /\ (mkdate 2021 5 14 = second_reading (world_at (midnight 2026 11 4))
      \/ (valid_date (mkdate 2021 5 14)
          /\ date_ltb (mkdate 2021 3 15) (mkdate 2021 5 14) = true
          /\ date_leb (mkdate 2021 5 14)
                      (first_reading (world_at (midnight 2026 11 4))) = true
          /\ (legal_type (business_of "BEN" (midnight 2019 3 15))
              = Some "BEN" ->
              toordinal (mkdate 2021 5 14)
              = toordinal (mkdate 2021 3 15) + 60))).
Proof.
  apply (get_ar_dates_window_shape
           (business_of "BEN" (midnight 2019 3 15)) 2021
           (world_at (midnight 2026 11 4))).
  reflexivity.
Defined.

(** X2. While the clock stays on one day, the window returned is not empty
    exactly when its minimum is not after that day. *)
Theorem get_ar_dates_nonempty_iff
        (self : Business) (y : Z) (w : World) (mn mx : date) :
  second_reading w = first_reading w ->
  fst (get_ar_dates self y w) = Ok (mn, mx) ->
  (date_leb mn mx = true <-> date_leb mn (first_reading w) = true).
Proof.
  intros Hsteady.
  destruct (get_ar_dates self y w) as [r w'] eqn:Hrun. cbn [fst].
  intros ->. apply get_ar_dates_returned in Hrun.
  destruct Hrun as (mx0 & Htable & Hcases).
  apply ar_rule_table_shape in Htable.
  destruct Htable as (_ & _ & _ & Hlt & _).
  destruct Hcases as [(_ & -> & _) | (Hgt & -> & _)].
  - now rewrite Hsteady.
  - generalize dependent (first_reading w). intros today0 _ Hgt.
    split; intros _; date_order; lia.
Qed.

Lemma get_ar_dates_nonempty_iff_witness :
  date_leb (mkdate 2026 1 1) (mkdate 2026 11 4) = true
  <-> date_leb (mkdate 2026 1 1)
               (first_reading (world_at (midnight 2026 11 4))) = true.
Proof.
  apply (get_ar_dates_nonempty_iff
           (business_of "BC" (midnight 2019 3 15)) 2026
           (world_at (midnight 2026 11 4))).
  - reflexivity.
  - reflexivity.
Defined.

(** X3. A call of [get_ar_dates] that raises has not read the clock; a call
    that returns has read it once, or twice when it clamped the maximum.
    In both cases the database session is left alone. *)
Theorem get_ar_dates_frame (self : Business) (y : Z) (w : World) :
  session_log (snd (get_ar_dates self y w)) = session_log w
  /\ clock (snd (get_ar_dates self y w)) = clock w
  /\ (raises (fst (get_ar_dates self y w)) ->
      snd (get_ar_dates self y w) = w)
  /\ (forall mn mx : date,
         fst (get_ar_dates self y w) = Ok (mn, mx) ->
         (ticks (snd (get_ar_dates self y w)) = S (ticks w)
          /\ date_leb mx (first_reading w) = true)
         \/ (ticks (snd (get_ar_dates self y w)) = S (S (ticks w))
             /\ mx = second_reading w)).
Proof.
  destruct (get_ar_dates self y w) as [[[mn mx] | e] w'] eqn:Hrun;
    cbn [fst snd].
  - apply get_ar_dates_returned in Hrun.
    destruct Hrun as (mx0 & _ & [(_ & -> & ->) | (Hgt & -> & ->)]);
      cbn [session_log clock ticks]; repeat split;
      try (intros [e H]; discriminate H).
    + intros mn' mx' [= <- <-]. now right.
    + intros mn' mx' [= <- <-]. left. auto with dates.
  - rewrite get_ar_dates_unfold in Hrun.
    assert (w' = w) as ->.
    { destruct (date_new y 1 1); [ | now inversion Hrun].
      destruct (date_new y 12 31); [ | now inversion Hrun].
      destruct (ar_rule_table self y) as [[mn mx] | ];
        [ | now inversion Hrun].
      destruct (date_gtb mx (first_reading w)); discriminate Hrun. }
    repeat split. intros mn mx H. discriminate H.
Qed.

Lemma get_ar_dates_frame_witness :
  snd (get_ar_dates (business_of "BEN" (midnight 2020 2 29)) 2021
                    (world_at (midnight 2026 11 4)))
  = world_at (midnight 2026 11 4).
Proof.
  apply (proj1 (proj2 (proj2 (get_ar_dates_frame
                                (business_of "BEN" (midnight 2020 2 29)) 2021
                                (world_at (midnight 2026 11 4)))))).
  exists ValueError. reflexivity.
Defined.

(** ** Good standing over time *)

Lemma lex_lt_trans (a b c : list Z) : lex_lt a b -> lex_lt b c -> lex_lt a c.
Proof.
  revert b c. induction a as [ | x a IH]; intros [ | y b] [ | z c]; cbn;
    try tauto.
  intros [Hxy | [-> Hab]] [Hyz | [-> Hbc]]; try (left; lia).
  right. split; [reflexivity | eauto].
Qed.

Lemma lex_lt_irrefl (a : list Z) : ~ lex_lt a a.
Proof. induction a as [ | x a IH]; cbn; [tauto | ]. intros [H | [_ H]]; [lia | auto]. Qed.

Lemma lex_lt_total (a b : list Z) :
  List.length a = List.length b -> lex_lt a b \/ a = b \/ lex_lt b a.
Proof.
  revert b. induction a as [ | x a IH]; intros [ | y b]; cbn; try discriminate.
  - auto.
  - intros [= Hlen]. destruct (Z.lt_total x y) as [H | [-> | H]]; auto.
    destruct (IH b Hlen) as [H | [-> | H]]; auto.
Qed.

Lemma datetime_gtb_iff (a b : datetime) :
  datetime_gtb a b = true <-> lex_lt (datetime_fields b) (datetime_fields a).
Proof.
  unfold datetime_gtb, datetime_cmp, date_cmp, time_cmp, datetime_fields.
  cbn [lex_lt].
  repeat match goal with
         | |- context [?x ?= ?y] => destruct (Z.compare_spec x y)
         end;
    split; intros Hcmp; try discriminate; try reflexivity; try lia.
Qed.

Lemma datetime_gtb_false_iff (a b : datetime) :
  datetime_gtb a b = false <->
  ~ lex_lt (datetime_fields b) (datetime_fields a).
Proof.
  rewrite <- datetime_gtb_iff. destruct (datetime_gtb a b); split;
    intros H; try reflexivity; try discriminate;
    try (intros H'; discriminate); exfalso; apply H; reflexivity.
Qed.

(** [c > b] and [a <= b] give [c > a]. *)
Lemma datetime_gtb_le (a b c : datetime) :
  datetime_gtb c b = true -> datetime_gtb a b = false ->
  datetime_gtb c a = true.
Proof.
  rewrite !datetime_gtb_iff, datetime_gtb_false_iff. intros Hbc Hab.
  destruct (lex_lt_total (datetime_fields a) (datetime_fields b)
                         eq_refl) as [H | [H | H]].
  - eapply lex_lt_trans; eauto.
  - now rewrite H.
  - contradiction.
Qed.

(** X4. Good standing only gets lost as time passes: a business in good
    standing at some time is in good standing at every earlier time, and a
    business out of good standing stays out at every later time. *)
Theorem good_standing_over_time (self : Business) (w w' : World) :
  datetime_gtb (now w) (now w') = false ->
  (fst (good_standing self w') = Ok true ->
   fst (good_standing self w) = Ok true)
  /\ (fst (good_standing self w) = Ok false ->
      fst (good_standing self w') = Ok false).
Proof.
  intros Hle. rewrite !good_standing_unfold.
  destruct (last_ar_date_or_founding_date self) as [base | ];
    [ | split; discriminate].
  destruct (datetime_add base grace_period) as [due | e];
    [ | split; discriminate].
  cbn [fst].
  destruct (datetime_gtb due (now w')) eqn:Hlater.
  - rewrite (datetime_gtb_le _ _ _ Hlater Hle). split; auto.
  - split; [discriminate | ].
    destruct (datetime_gtb due (now w)) eqn:Hnow; [discriminate | auto].
Qed.

Lemma good_standing_over_time_witness :
  fst (good_standing (business_of "BC" (midnight 2025 9 3))
                     (world_at (midnight 2027 1 1)))
  = Ok false.
Proof.
  apply (proj2 (good_standing_over_time
                  (business_of "BC" (midnight 2025 9 3))
                  (world_at (midnight 2026 11 4))
                  (world_at (midnight 2027 1 1)) eq_refl)).
  reflexivity.
Defined.

(** ** The next anniversary *)

Lemma leap_year_next (y : Z) : _is_leap y = true -> _is_leap (y + 1) = false.
Proof.
  unfold _is_leap. intros H.
  apply andb_prop in H. destruct H as [H4 _]. apply Z.eqb_eq in H4.
  destruct (Z.eqb_spec ((y + 1) mod 4) 0) as [E | E]; [ | reflexivity].
  exfalso. Z.div_mod_to_equations. lia.
Qed.

Lemma days_in_february (y : Z) :
  _days_in_month y 2 = if _is_leap y then 29 else 28.
Proof. unfold _days_in_month. destruct (_is_leap y); reflexivity. Qed.

Lemma days_in_other_month (y y' m : Z) :
  m <> 2 -> _days_in_month y m = _days_in_month y' m.
Proof.
  intros Hm. unfold _days_in_month.
  destruct (Z.eqb_spec m 2); [contradiction | reflexivity].
Qed.

(** One year after a date of the calendar: the same month and day, or
    March 1 after a February 29. *)
Lemma shift_one_year (y m d : Z) :
  _check_date_fields y m d = true ->
  shift_ymd (mkdelta 1 0 0) y m d
  = if (m =? 2) && (d =? 29) then (y + 1, 3, 1) else (y + 1, m, d).
Proof.
  intros Hv. apply check_fields_bounds in Hv. destruct Hv as (Hy & Hm & Hd).
  unfold shift_ymd. cbn [years months Z.eqb].
  destruct (Z.eqb_spec m 2) as [-> | Hm2]; cbn [andb].
  - rewrite days_in_february in *.
    destruct (Z.eqb_spec d 29) as [-> | Hd29].
    + destruct (_is_leap y) eqn:Hl; [ | lia].
      rewrite (leap_year_next _ Hl). reflexivity.
    + destruct (_is_leap y); destruct (_is_leap (y + 1));
        match goal with
        | |- context [?a <? d] => destruct (Z.ltb_spec a d)
        end; try reflexivity; lia.
  - rewrite (days_in_other_month (y + 1) y m Hm2).
    destruct (Z.ltb_spec (_days_in_month y m) d); [lia | reflexivity].
Qed.

(** The grace period is the year of the anniversary, then two months,
    then a day. *)
Lemma shift_grace_period (y m d : Z) :
  shift_ymd grace_period y m d
  = shift_months 2 (shift_ymd (mkdelta 1 0 0) y m d).
Proof.
  unfold shift_ymd, shift_months, grace_period. cbn [years months Z.eqb].
  destruct (_days_in_month (y + 1) m <? d); reflexivity.
Qed.

Lemma days_in_month_range (y m : Z) :
  1 <= m <= 12 -> 28 <= _days_in_month y m <= 31.
Proof.
  intros Hm. unfold _days_in_month.
  split_month m; destruct (_is_leap y); vm_compute; split; discriminate.
Qed.

Lemma days_in_december (y : Z) : _days_in_month y 12 = 31.
Proof. reflexivity. Qed.

(** Two months after a date of the calendar of a year up to 9998: a later
    date of the calendar, before its last day. *)
Lemma shift_two_months (y1 m1 d1 : Z) :
  _check_date_fields y1 m1 d1 = true ->
  y1 <= 9998 ->
  exists y2 m2 d2 : Z,
    shift_months 2 (y1, m1, d1) = (y2, m2, d2)
    /\ _check_date_fields y2 m2 d2 = true
    /\ date_ltb (mkdate y1 m1 d1) (mkdate y2 m2 d2) = true
    /\ date_ltb (mkdate y2 m2 d2) (mkdate 9999 12 31) = true.
Proof.
  unfold shift_months. cbv zeta.
  intros Hv Hy1.
  apply check_fields_bounds in Hv. destruct Hv as (Hy & Hm & Hd).
  pose proof (days_in_month_range y1 m1 Hm) as Hr1.
  remember ((m1 + 2 - 1) / 12) as q eqn:Eq.
  remember ((m1 + 2 - 1) mod 12) as r eqn:Er.
  assert (Hqr : m1 + 1 = 12 * q + r /\ 0 <= r < 12)
    by (subst q r; Z.div_mod_to_equations; lia).
  clear Eq Er.
  pose proof (days_in_month_range (y1 + q) (r + 1) ltac:(lia)) as Hr2.
  destruct (Z.ltb_spec (_days_in_month (y1 + q) (r + 1)) d1) as [Hover | Hfit];
    (eexists; eexists; eexists; split; [reflexivity | ]).
  - assert (Hnot12 : r + 1 <> 12)
      by (intros E; rewrite E, days_in_december in Hover; lia).
    pose proof (days_in_month_range (y1 + q) (r + 1 + 1) ltac:(lia)) as Hr3.
    split; [apply check_fields_of_bounds; lia | split; date_order; lia].
  - split; [apply check_fields_of_bounds; lia | split; date_order; lia].
Qed.

Lemma day_exists_next_year (y m d : Z) :
  _check_date_fields y m d = true ->
  (m =? 2) && (d =? 29) = false ->
  1 <= d <= _days_in_month (y + 1) m.
Proof.
  intros Hv Hnot. apply check_fields_bounds in Hv.
  destruct Hv as (Hy & Hm & Hd).
  destruct (Z.eqb_spec m 2) as [-> | Hm2].
  - rewrite days_in_february in *.
    destruct (Z.eqb_spec d 29); [discriminate | ].
    destruct (_is_leap y); destruct (_is_leap (y + 1)); lia.
  - now rewrite (days_in_other_month (y + 1) y m Hm2).
Qed.

(** X5. The next anniversary is one year after the last annual-report date,
    or after the founding date when no report was filed: the same month,
    day and time of day in the following year, and March 1 when that date
    is a February 29.  It raises [TypeError] when neither date is set and
    [ValueError] when the date is in the year 9999. *)
Theorem next_anniversary_spec (self : Business) :
  (last_ar_date_or_founding_date self = None ->
   next_anniversary self = Raise TypeError)
  /\ (forall base : datetime,
         last_ar_date_or_founding_date self = Some base ->
         valid_date (dt_date base) ->
         next_anniversary self
         = if year (dt_date base) =? 9999 then Raise ValueError
           else Ok (mkdatetime
                      (if (month (dt_date base) =? 2)
                          && (day (dt_date base) =? 29)
                       then mkdate (year (dt_date base) + 1) 3 1
                       else mkdate (year (dt_date base) + 1)
                                   (month (dt_date base))
                                   (day (dt_date base)))
                      (hour base) (minute base) (second base)
                      (microsecond base))).
Proof.
  unfold next_anniversary. rewrite py_or_spec. split.
  - now intros ->.
  - intros base -> Hv. unfold valid_date in Hv.
    destruct base as [[y m d] h mi s us]; cbn [dt_date year month day] in *.
    unfold datetime_add. cbn [dt_date year month day days Z.eqb].
    rewrite (shift_one_year _ _ _ Hv).
    pose proof (check_fields_bounds _ _ _ Hv) as (Hy & Hm & Hd).
    unfold datetime_replace, rbind. cbn [hour minute second microsecond].
    destruct (Z.eqb_spec y 9999) as [-> | Hy9].
    + destruct ((m =? 2) && (d =? 29));
        rewrite date_new_bad_year by reflexivity; reflexivity.
    + destruct ((m =? 2) && (d =? 29)) eqn:Hfeb.
      * rewrite date_new_ok; [reflexivity | ].
        apply check_fields_of_bounds; try lia.
        pose proof (days_in_month_range (y + 1) 3 ltac:(lia)). lia.
      * rewrite date_new_ok; [reflexivity | ].
        apply check_fields_of_bounds; try lia.
        now apply day_exists_next_year.
Qed.

Lemma next_anniversary_spec_witness :
  next_anniversary (business_of "BC" (midnight 2020 2 29))
  = Ok (midnight 2021 3 1).
Proof.
  apply (proj2 (next_anniversary_spec
                  (business_of "BC" (midnight 2020 2 29)))
               (midnight 2020 2 29)); reflexivity.
Defined.

Lemma datetime_gtb_of_dates (a b : datetime) :
  date_ltb (dt_date a) (dt_date b) = true -> datetime_gtb b a = true.
Proof.
  rewrite datetime_gtb_iff, date_ltb_iff. unfold datetime_fields.
  cbn [lex_lt]. tauto.
Qed.

Lemma datetime_add_inv (base r : datetime) (delta : datedelta) :
  datetime_add base delta = Ok r ->
  exists y m d : Z,
    shift_ymd delta (year (dt_date base)) (month (dt_date base))
              (day (dt_date base)) = (y, m, d)
    /\ _check_date_fields y m d = true
    /\ (days delta = 0 ->
        r = mkdatetime (mkdate y m d) (hour base) (minute base)
                       (second base) (microsecond base)).
Proof.
  unfold datetime_add, datetime_replace, rbind.
  destruct (shift_ymd _ _ _ _) as [[y m] d].
  destruct (date_new y m d) as [x | ] eqn:Hx; [ | discriminate].
  apply date_new_inv in Hx. destruct Hx as [-> Hv].
  intros H. exists y, m, d. repeat split; auto.
  intros Hd. rewrite Hd in H. cbn in H. now inversion H.
Qed.

(** X6. Until its next anniversary a business is in good standing: when
    the next anniversary is not before the current time and falls in a year
    up to 9998, [good_standing] returns true. *)
Theorem good_standing_until_anniversary
        (self : Business) (w : World) (a : datetime) :
  next_anniversary self = Ok a ->
  year (dt_date a) <= 9998 ->
  datetime_gtb (now w) a = false ->
  fst (good_standing self w) = Ok true.
Proof.
  unfold next_anniversary. rewrite py_or_spec, good_standing_unfold.
  destruct (last_ar_date_or_founding_date self) as [base | ];
    [ | discriminate].
  intros Ha Hy Hnow.
  apply datetime_add_inv in Ha.
  destruct Ha as (y1 & m1 & d1 & Hshift & Hv1 & Hval).
  specialize (Hval eq_refl). subst a. cbn [dt_date year] in Hy.
  destruct (shift_two_months y1 m1 d1 Hv1 Hy)
    as (y2 & m2 & d2 & Hshift2 & Hv2 & Hlt & Hend).
  unfold datetime_add, datetime_replace, rbind.
  rewrite shift_grace_period, Hshift, Hshift2, (date_new_ok _ _ _ Hv2).
  unfold grace_period. cbn [days Z.eqb].
  unfold datetime_add_days, rbind. cbn [dt_date].
  pose proof (toordinal_lt (mkdate y1 m1 d1) (mkdate y2 m2 d2) Hv1 Hv2 Hlt)
    as Ho12.
  pose proof (toordinal_lt (mkdate y2 m2 d2) (mkdate 9999 12 31) Hv2
                           eq_refl Hend) as Hoend.
  change (toordinal (mkdate 9999 12 31)) with 3652059 in Hoend.
  pose proof (ymd2ord_in_year y1 m1 d1) as Hpos.
  apply check_fields_bounds in Hv1 as Hb1.
  specialize (Hpos ltac:(lia) ltac:(lia)).
  pose proof (days_before_year_mono 1 y1 ltac:(lia)) as Hlo.
  change (_days_before_year 1) with 0 in Hlo.
  unfold toordinal in Ho12, Hoend. cbn [year month day] in Ho12, Hoend.
  destruct (date_add_days (mkdate y2 m2 d2) 1) as [due | e] eqn:Hdue.
  - apply (date_add_days_spec (mkdate y2 m2 d2) _ _ Hv2) in Hdue.
    destruct Hdue as [Hvdue Hodue]. cbn [fst]. f_equal.
    eapply datetime_gtb_le; [ | exact Hnow].
    apply datetime_gtb_of_dates. cbn [dt_date].
    apply date_ltb_toordinal; auto.
    unfold toordinal in *. cbn [year month day] in *. lia.
  - exfalso. unfold date_add_days, toordinal, _MAXORDINAL in Hdue.
    cbn [year month day] in Hdue.
    destruct (Z.ltb_spec 0 (_ymd2ord y2 m2 d2 + 1)); [ | lia].
    destruct (Z.leb_spec (_ymd2ord y2 m2 d2 + 1) 3652059); [ | lia].
    discriminate Hdue.
Qed.

Lemma good_standing_until_anniversary_witness :
  fst (good_standing (business_of "BC" (midnight 2025 12 1))
                     (world_at (midnight 2026 11 4)))
  = Ok true.
Proof.
  apply (good_standing_until_anniversary
           (business_of "BC" (midnight 2025 12 1))
           (world_at (midnight 2026 11 4))
           (midnight 2026 12 1)).
  - reflexivity.
  - cbn. lia.
  - reflexivity.
Defined.

(** ** Accepted identifiers *)

Section IntFacts.

Lemma every_skip_space (f : ascii -> bool) (s : string) :
  (forall c, is_space c = true -> f c = true) ->
  every f (skip_space s) = true -> every f s = true.
Proof.
  intros Hf. induction s as [ | c s IH]; cbn; [auto | ].
  destruct (is_space c) eqn:Hc; [ | auto].
  intros H. now rewrite (Hf c Hc), IH.
Qed.

Lemma every_spaces (s : string) :
  skip_space s = "" -> every is_space s = true.
Proof.
  induction s as [ | c s IH]; cbn; [auto | ].
  destruct (is_space c); [auto | discriminate].
Qed.

Lemma every_impl (f g : ascii -> bool) (s : string) :
  (forall c, f c = true -> g c = true) ->
  every f s = true -> every g s = true.
Proof.
  intros Hfg. induction s as [ | c s IH]; cbn; [auto | ].
  intros H. apply andb_prop in H. destruct H as [Hc Hs].
  now rewrite (Hfg c Hc), IH.
Qed.

Lemma every_scan_digits (s rest : string) (prev : scanned) (acc v : Z) :
  scan_digits s prev acc = Some (v, rest) ->
  every int_character rest = true -> every int_character s = true.
Proof.
  revert prev acc. induction s as [ | c s IH]; intros prev acc; cbn.
  - destruct prev; intros [= <- <-]; auto.
  - unfold int_character at 2.
    destruct (is_underscore c) eqn:Hu.
    + rewrite !orb_true_r. cbn.
      destruct prev; try discriminate; eauto.
    + destruct (is_digit c) eqn:Hd.
      * cbn. eauto.
      * destruct prev; try discriminate.
        intros [= <- <-]. cbn. unfold int_character. rewrite Hd, Hu. auto.
Qed.

Lemma every_strip_sign (s s' : string) (sign : Z) :
  strip_sign s = (sign, s') ->
  every int_character s' = true -> every int_character s = true.
Proof.
  destruct s as [ | c s]; cbn.
  - now intros [= <- <-].
  - unfold int_character at 2.
    destruct (ord c =? 43) eqn:Hp.
    + intros [= <- <-] ->. now rewrite !orb_true_r.
    + destruct (ord c =? 45) eqn:Hm.
      * intros [= <- <-] ->. now rewrite !orb_true_r.
      * intros [= <- <-]. cbn. unfold int_character. now rewrite Hp, Hm.
Qed.

(** [int] raises on a string with a character that is no digit, sign,
    underscore or white space. *)
Lemma int_characters (s : string) (v : Z) :
  int s = Ok v -> every int_character s = true.
Proof.
  unfold int.
  destruct (strip_sign (skip_space s)) as [sign s1] eqn:Hsign.
  destruct (starts_with_underscore s1); [discriminate | ].
  destruct (scan_digits s1 Nothing 0) as [[v1 rest] | ] eqn:Hscan;
    [ | discriminate].
  destruct (skip_space rest) eqn:Hrest; [ | discriminate].
  intros _.
  apply every_skip_space;
    [intros c Hc; unfold int_character; rewrite Hc;
     now rewrite ?orb_true_r | ].
  apply (every_strip_sign _ _ _ Hsign).
  apply (every_scan_digits _ _ _ _ _ Hscan).
  apply every_spaces in Hrest.
  apply (every_impl is_space); [ | exact Hrest].
  intros c Hc. unfold int_character. rewrite Hc. now rewrite ?orb_true_r.
Qed.

End IntFacts.

Section DigitStrings.

Lemma digit_is_plain (c : ascii) :
  is_digit c = true ->
  is_underscore c = false /\ is_space c = false
  /\ (ord c =? 43) = false /\ (ord c =? 45) = false.
Proof.
  unfold is_digit, is_underscore, is_space. intros H.
  apply andb_prop in H. destruct H as [Hlo Hhi].
  apply Z.leb_le in Hlo, Hhi.
  repeat split;
    repeat match goal with
           | |- context [?a =? ?b] => destruct (Z.eqb_spec a b); try lia
           | |- context [?a <=? ?b] => destruct (Z.leb_spec a b); try lia
           end; reflexivity.
Qed.

Lemma scan_digits_of_digits (s : string) (prev : scanned) (acc : Z) :
  every is_digit s = true ->
  s <> "" \/ prev = Digit ->
  scan_digits s prev acc = Some (decimal_value acc s, "").
Proof.
  revert prev acc. induction s as [ | c s IH]; intros prev acc Hs Hne.
  - destruct Hne as [Hne | ->]; [contradiction | reflexivity].
  - cbn in Hs. apply andb_prop in Hs. destruct Hs as [Hc Hs].
    destruct (digit_is_plain c Hc) as (Hu & _).
    cbn. rewrite Hu, Hc. apply IH; auto.
Qed.

Lemma int_of_digits (s : string) :
  every is_digit s = true -> s <> "" -> int s = Ok (decimal_value 0 s).
Proof.
  intros Hs Hne. destruct s as [ | c s]; [contradiction | ].
  pose proof Hs as Hc. cbn in Hc. apply andb_prop in Hc.
  destruct Hc as [Hc _].
  destruct (digit_is_plain c Hc) as (Hu & Hsp & Hplus & Hminus).
  unfold int. cbn [skip_space]. rewrite Hsp.
  cbn [strip_sign]. rewrite Hplus, Hminus.
  cbn [starts_with_underscore]. rewrite Hu.
  rewrite scan_digits_of_digits by (auto; left; discriminate).
  cbn [skip_space]. now rewrite Z.mul_1_l.
Qed.

Lemma digit_value_range (c : ascii) :
  is_digit c = true -> 0 <= digit_value c <= 9.
Proof.
  unfold is_digit, digit_value. intros H.
  apply andb_prop in H. destruct H as [Hlo Hhi].
  apply Z.leb_le in Hlo, Hhi. lia.
Qed.

Lemma decimal_value_ge (s : string) (acc : Z) :
  every is_digit s = true -> 0 <= acc -> acc <= decimal_value acc s.
Proof.
  revert acc. induction s as [ | c s IH]; intros acc Hs Hacc; cbn; [lia | ].
  cbn in Hs. apply andb_prop in Hs. destruct Hs as [Hc Hs].
  pose proof (digit_value_range c Hc).
  pose proof (IH (acc * 10 + digit_value c) Hs ltac:(lia)). lia.
Qed.

(** A string of digits writes zero only when every digit is [0]. *)
Lemma decimal_value_zero (s : string) (acc : Z) :
  every is_digit s = true -> 0 <= acc -> decimal_value acc s = 0 ->
  acc = 0 /\ every (fun c => ord c =? 48) s = true.
Proof.
  revert acc. induction s as [ | c s IH]; intros acc Hs Hacc Hz; cbn in *;
    [auto | ].
  apply andb_prop in Hs. destruct Hs as [Hc Hs].
  pose proof (digit_value_range c Hc) as Hr.
  destruct (IH (acc * 10 + digit_value c) Hs ltac:(lia) Hz) as [H0 Hall].
  rewrite Hall. unfold digit_value in *.
  destruct (Z.eqb_spec (ord c) 48); split; auto; lia.
Qed.

Lemma ord_48 (c : ascii) : (ord c =? 48) = true -> c = "0"%char.
Proof.
  unfold ord. intros H. apply Z.eqb_eq in H.
  assert (HN : N_of_ascii c = 48%N) by lia.
  rewrite <- (ascii_N_embedding c), HN. reflexivity.
Qed.

Lemma seven_zeros (s : string) :
  String.length s = 7%nat -> every (fun c => ord c =? 48) s = true ->
  s = "0000000".
Proof.
  intros Hlen Hall.
  do 7 (destruct s as [ | ? s]; [discriminate Hlen | ];
        cbn in Hall; apply andb_prop in Hall;
        let H := fresh in destruct Hall as [H Hall];
        apply ord_48 in H; subst).
  destruct s; [reflexivity | discriminate Hlen].
Qed.

Lemma all_digits_every (s : string) :
  all_digits s = every is_digit s.
Proof.
  unfold all_digits. induction s as [ | c s IH]; cbn; [reflexivity | ].
  now rewrite IH.
Qed.

End DigitStrings.

Section Appended.

Lemma length_app (p t : string) :
  String.length (p ++ t) = (String.length p + String.length t)%nat.
Proof. induction p as [ | c p IH]; cbn; [reflexivity | now rewrite IH]. Qed.

Lemma substring_app_left (p t : string) :
  substring 0 (String.length p) (p ++ t) = p.
Proof.
  induction p as [ | c p IH]; cbn; [apply substring_0_0 | now rewrite IH].
Qed.

Lemma substring_app_right (p t : string) :
  substring (String.length p) (String.length t) (p ++ t) = t.
Proof.
  induction p as [ | c p IH]; cbn; [apply substring_whole | exact IH].
Qed.

Lemma leading_app (p t : string) :
  String.length t = 7%nat -> leading (p ++ t) = p.
Proof.
  intros Ht. unfold leading. rewrite length_app, Ht.
  replace (String.length p + 7 - 7)%nat with (String.length p) by lia.
  apply substring_app_left.
Qed.

Lemma trailing7_app (p t : string) :
  String.length t = 7%nat -> trailing7 (p ++ t) = t.
Proof.
  intros Ht. unfold trailing7. rewrite length_app, Ht.
  replace (String.length p + 7 - 7)%nat with (String.length p) by lia.
  rewrite <- Ht at 1. apply substring_app_right.
Qed.

End Appended.

(** What an identifier that does not start with [NR] is accepted for. *)
Lemma validate_identifier_accepts (s : string) :
  validate_identifier s = true ->
  ~ starts_with_NR s ->
  9 <= len s
  /\ (exists d : Z, int (trailing7 s) = Ok d /\ d <> 0)
  /\ In (leading s) known_prefixes.
Proof.
  unfold validate_identifier. intros Hv HNR.
  destruct (String.eqb (slice_to s 2) "NR") eqn:E;
    [apply slice_to_2_NR in E; contradiction | ].
  destruct (Z.ltb_spec (len s) 9) as [Hshort | Hlong]; [discriminate | ].
  rewrite slice_from_minus7, slice_to_minus7 in Hv by lia.
  destruct (int (trailing7 s)) as [d | e]; [ | discriminate].
  destruct (Z.eqb_spec d 0) as [Hz | Hd]; [discriminate | ].
  destruct (in_tuple (leading s) ["CP"; "XCP"; "BC"]) eqn:Hin;
    [ | discriminate].
  apply in_tuple_In in Hin. repeat split; eauto.
Qed.

(** X7. An identifier that is accepted and does not start with [NR] is one
    of the prefixes [CP], [XCP] and [BC] followed by 7 characters, each a
    digit, a sign, an underscore or white space; it has 9 or 10
    characters. *)
Theorem accepted_identifier_shape (s : string) :
  validate_identifier s = true ->
  ~ starts_with_NR s ->
  s = (leading s ++ trailing7 s)%string
  /\ In (leading s) known_prefixes
  /\ String.length (trailing7 s) = 7%nat
  /\ every int_character (trailing7 s) = true
  /\ (len s = 9 \/ len s = 10).
Proof.
  intros Hv HNR.
  destruct (validate_identifier_accepts s Hv HNR)
    as (Hlen & (d & Hint & _) & Hin).
  destruct (leading_trailing7 s ltac:(lia)) as [Hcut H7].
  repeat split; auto.
  - apply (int_characters _ _ Hint).
  - rewrite len_nat, <- Hcut, length_app, H7.
    unfold known_prefixes in Hin.
    destruct Hin as [<- | [<- | [<- | []]]]; cbn; lia.
Qed.

Lemma accepted_identifier_shape_witness :
  "XCP0012345" = (leading "XCP0012345" ++ trailing7 "XCP0012345")%string
  /\ In (leading "XCP0012345") known_prefixes
  /\ String.length (trailing7 "XCP0012345") = 7%nat
  /\ every int_character (trailing7 "XCP0012345") = true
  /\ (len "XCP0012345" = 9 \/ len "XCP0012345" = 10).
Proof.
  apply (accepted_identifier_shape "XCP0012345").
  - reflexivity.
  - intros [rest H]. discriminate H.
Defined.

(** X8. Every identifier of the registry scheme is accepted: a prefix
    [CP], [XCP] or [BC] followed by 7 digits that are not all [0]. *)
Theorem conforming_identifier_accepted (p t : string) :
  In p known_prefixes ->
  String.length t = 7%nat ->
  all_digits t = true ->
  t <> "0000000" ->
  validate_identifier (p ++ t) = true.
Proof.
  intros Hp Ht Hdigits Hnz. rewrite all_digits_every in Hdigits.
  unfold validate_identifier.
  destruct (String.eqb (slice_to (p ++ t) 2) "NR"); [reflexivity | ].
  assert (Hlen : 9 <= len (p ++ t)).
  { rewrite len_nat, length_app, Ht. unfold known_prefixes in Hp.
    destruct Hp as [<- | [<- | [<- | []]]]; cbn; lia. }
  destruct (Z.ltb_spec (len (p ++ t)) 9); [lia | ].
  rewrite slice_from_minus7, slice_to_minus7 by lia.
  rewrite (trailing7_app p t Ht), (leading_app p t Ht).
  rewrite int_of_digits by (auto; intros ->; discriminate Ht).
  destruct (Z.eqb_spec (decimal_value 0 t) 0) as [Hz | _].
  - exfalso. apply Hnz.
    destruct (decimal_value_zero t 0 Hdigits ltac:(lia) Hz) as [_ Hall].
    now apply seven_zeros.
  - rewrite (proj2 (in_tuple_In p ["CP"; "XCP"; "BC"]) Hp). reflexivity.
Qed.

Lemma conforming_identifier_accepted_witness :
  validate_identifier ("BC" ++ "0000001") = true.
Proof.
  apply (conforming_identifier_accepted "BC" "0000001").
  - right. right. left. reflexivity.
  - reflexivity.
  - reflexivity.
  - discriminate.
Defined.

(** ** Assignments to the identifier, one after the other *)

Lemma identifier_setter_state (value : string) (self : Business) :
  snd (identifier_setter value self)
  = if validate_identifier value then set__identifier self value else self.
Proof.
  unfold identifier_setter. destruct (validate_identifier value); reflexivity.
Qed.

Lemma set__identifier_twice (self : Business) (a b : string) :
  set__identifier (set__identifier self a) b = set__identifier self b.
Proof. reflexivity. Qed.

Lemma find_app {A : Type} (f : A -> bool) (l l' : list A) :
  find f (l ++ l') = match find f l with
                     | Some x => Some x
                     | None => find f l'
                     end.
Proof.
  induction l as [ | x l IH]; cbn; [reflexivity | ].
  destruct (f x); [reflexivity | exact IH].
Qed.

(** X9. After any run of assignments to the identifier, failed ones
    included, the business is the one it was with the last accepted value
    stored, or the one it was when no value was accepted.  So a stored
    identifier that was valid or absent before the run is valid or absent
    after it. *)
Theorem assign_all_last_valid (values : list string) (self : Business) :
  assign_all values self
  = match last_valid values with
    | Some value => set__identifier self value
    | None => self
    end
  /\ ((identifier self = None
       \/ exists v, identifier self = Some v /\ validate_identifier v = true) ->
      identifier (assign_all values self) = None
      \/ exists v, identifier (assign_all values self) = Some v
                   /\ validate_identifier v = true).
Proof.
  assert (Heq : forall self0 : Business,
             assign_all values self0
             = match last_valid values with
               | Some value => set__identifier self0 value
               | None => self0
               end).
  { unfold assign_all, last_valid.
    induction values as [ | v values IH]; intros self0; cbn [fold_left rev].
    - reflexivity.
    - rewrite IH, identifier_setter_state, find_app. cbn [find].
      destruct (find validate_identifier (rev values)) as [x | ].
      + destruct (validate_identifier v); reflexivity.
      + destruct (validate_identifier v); reflexivity. }
  split; [apply Heq | ].
  intros Hinv. rewrite Heq.
  destruct (last_valid values) as [x | ] eqn:Hlast; [ | exact Hinv].
  right. exists x. split; [reflexivity | ].
  unfold last_valid in Hlast. now apply find_some in Hlast.
Qed.

Lemma assign_all_last_valid_witness :
  identifier (assign_all ["BC1234567"; "bad"; "CP0000000"] blank_business)
  = None
  \/ exists v,
      identifier (assign_all ["BC1234567"; "bad"; "CP0000000"]
                             blank_business) = Some v
      /\ validate_identifier v = true.
Proof.
  apply (proj2 (assign_all_last_valid ["BC1234567"; "bad"; "CP0000000"]
                                      blank_business)).
  left. reflexivity.
Defined.

(** ** The queries *)

Import Query.

(** Splits a conjunction into its conjuncts, introducing nothing. *)
Ltac conjuncts := repeat match goal with |- _ /\ _ => split end.

Section QueryFacts.

Lemma one_or_none_some {A : Type} (db : Database) (rows : list A) (row : A) :
  one_or_none db rows = Returned (Some row) ->
  outage db = None /\ rows = [row].
Proof.
  unfold one_or_none. destruct (outage db); [discriminate | ].
  destruct rows as [ | r [ | r' rows]]; try discriminate.
  now intros [= ->].
Qed.

Lemma one_or_none_failed {A : Type} (db : Database) (rows : list A)
      (e : failure) :
  one_or_none db rows = Failed e ->
  outage db = Some e \/ (outage db = None /\ e = MultipleResultsFound).
Proof.
  unfold one_or_none. destruct (outage db) as [e' | ].
  - intros [= ->]. now left.
  - destruct rows as [ | r [ | r' rows]]; try discriminate.
    intros [= <-]. now right.
Qed.

Lemma in_singleton_filter {A : Type} (f : A -> bool) (l : list A) (x : A) :
  filter f l = [x] -> In x l /\ f x = true.
Proof.
  intros H. apply filter_In. rewrite H. now left.
Qed.

Lemma str_truthy_some (o : option string) :
  str_truthy o = true -> exists s, o = Some s /\ s <> "".
Proof.
  destruct o as [s | ]; cbn; [ | discriminate].
  destruct (String.eqb_spec s ""); [discriminate | eauto].
Qed.

Lemma is_null_none {A : Type} (column : option A) :
  is_null column = true -> column = None.
Proof. destruct column; [discriminate | reflexivity]. Qed.

End QueryFacts.

(** X10. [find_by_legal_name] returns only a business of the table that
    bears the name asked for and has no dissolution date.  It answers
    [None] without running a query when the name is [None] or empty, and
    [None] as well when the database raises [OperationalError] or
    [ResourceClosedError]: it never raises one of these two. *)
Theorem find_by_legal_name_spec (db : Database) (name : option string) :
  (forall b : Business,
      find_by_legal_name db name = Returned (Some b) ->
      In b (businesses db)
      /\ legal_name b = name
      /\ dissolution_date b = None)
  /\ (str_truthy name = false -> find_by_legal_name db name = Returned None)
  /\ (outage db = Some OperationalError
      \/ outage db = Some ResourceClosedError ->
      find_by_legal_name db name = Returned None)
  /\ find_by_legal_name db name <> Failed OperationalError
  /\ find_by_legal_name db name <> Failed ResourceClosedError.
Proof.
  unfold find_by_legal_name, one_or_none.
  destruct name as [value | ]; [ | conjuncts; try discriminate; auto].
  destruct (str_truthy (Some value)) eqn:Htruthy;
    [ | conjuncts; try discriminate; auto].
  destruct (outage db) as [[ | | | | e] | ] eqn:Hout;
    [conjuncts; try discriminate; auto;
     intros [H | H]; discriminate H .. | ].
  destruct (filter _ (filter _ _)) as [ | row [ | row' rows]] eqn:Hrows;
    conjuncts; try discriminate; auto;
    try (intros [H | H]; discriminate H).
  intros b [= <-].
  apply in_singleton_filter in Hrows. destruct Hrows as [Hin Hnull].
  apply filter_In in Hin. destruct Hin as [Hin Hname].
  apply column_eq_true in Hname. apply is_null_none in Hnull. auto.
Qed.

Lemma find_by_legal_name_spec_witness :
  find_by_legal_name (mkDatabase (Some OperationalError) [])
                     (Some "ACME LTD.")
  = Returned None.
Proof.
  apply (proj1 (proj2 (proj2 (find_by_legal_name_spec
                                (mkDatabase (Some OperationalError) [])
                                (Some "ACME LTD."))))).
  left. reflexivity.
Defined.

(** X11. [find_by_identifier] and [find_by_internal_id] return only a
    business of the table with the identifier, or the id, asked for,
    dissolved or not.  For [None], the empty identifier and the id 0 they
    answer [None] without running a query; otherwise an error of the
    database is raised to the caller. *)
Theorem find_by_key_spec (db : Database) :
  (forall (identifier : option string) (b : Business),
      find_by_identifier db identifier = Returned (Some b) ->
      In b (businesses db) /\ _identifier b = identifier)
  /\ (forall (internal_id : option Z) (b : Business),
         find_by_internal_id db internal_id = Returned (Some b) ->
         In b (businesses db) /\ id b = internal_id)
  /\ find_by_identifier db None = Returned None
  /\ find_by_identifier db (Some "") = Returned None
  /\ find_by_internal_id db None = Returned None
  /\ find_by_internal_id db (Some 0) = Returned None
  /\ (forall (e : failure) (identifier : option string),
         outage db = Some e -> str_truthy identifier = true ->
         find_by_identifier db identifier = Failed e)
  /\ (forall (e : failure) (internal_id : option Z),
         outage db = Some e -> int_truthy internal_id = true ->
         find_by_internal_id db internal_id = Failed e).
Proof.
  conjuncts; try reflexivity.
  - intros identifier b H. unfold find_by_identifier in H.
    destruct identifier as [value | ]; [ | discriminate].
    destruct (str_truthy (Some value)); [ | discriminate].
    apply one_or_none_some in H. destruct H as [_ H].
    apply in_singleton_filter in H. destruct H as [Hin H].
    apply column_eq_true in H. auto.
  - intros internal_id b H. unfold find_by_internal_id in H.
    destruct internal_id as [value | ]; [ | discriminate].
    destruct (int_truthy (Some value)); [ | discriminate].
    apply one_or_none_some in H. destruct H as [_ H].
    apply in_singleton_filter in H. destruct H as [Hin H].
    unfold column_eqZ in H. destruct (id b) as [n | ]; [ | discriminate].
    apply Z.eqb_eq in H. subst. auto.
  - intros e identifier Hdown Htruthy. unfold find_by_identifier.
    destruct identifier as [value | ]; [ | discriminate].
    rewrite Htruthy. unfold one_or_none. now rewrite Hdown.
  - intros e internal_id Hdown Htruthy. unfold find_by_internal_id.
    destruct internal_id as [value | ]; [ | discriminate].
    rewrite Htruthy. unfold one_or_none. now rewrite Hdown.
Qed.

Lemma find_by_key_spec_witness :
  find_by_identifier (mkDatabase (Some DBAPIError) []) (Some "CP1234567")
  = Failed DBAPIError.
Proof.
  apply (proj1 (proj2 (proj2 (proj2 (proj2 (proj2 (proj2
           (find_by_key_spec (mkDatabase (Some DBAPIError) []))))))))
               DBAPIError (Some "CP1234567")); reflexivity.
Defined.

Section LegalTypeFacts.

Lemma tax_id_types_value :
  list_remove (LegalTypes.value LegalTypes.COOP)
              (map LegalTypes.value LegalTypes_members)
  = Ok (map LegalTypes.value (tl LegalTypes_members)).
Proof. reflexivity. Qed.

(** Every member but [COOP] is left, and no other string is [CP]. *)
Lemma members_but_coop (l : LegalTypes.t) :
  In l (tl LegalTypes_members) <-> l <> LegalTypes.COOP.
Proof.
  split.
  - intros Hin ->. cbn in Hin.
    repeat (destruct Hin as [Hin | Hin]; [discriminate Hin | ]).
    exact Hin.
  - intros Hne. destruct l; try contradiction; cbn;
      repeat (first [left; reflexivity | right]).
Qed.

Lemma column_in_values (column : option string) (members : list LegalTypes.t) :
  column_in column (map LegalTypes.value members) = true <->
  exists l, In l members /\ column = Some (LegalTypes.value l).
Proof.
  unfold column_in. destruct column as [s | ].
  - rewrite existsb_exists. split.
    + intros (x & Hx & Heq). apply String.eqb_eq in Heq. subst x.
      apply in_map_iff in Hx. destruct Hx as (l & <- & Hl). eauto.
    + intros (l & Hl & [= ->]). exists (LegalTypes.value l).
      split; [now apply in_map | apply String.eqb_refl].
  - split; [discriminate | intros (l & _ & H); discriminate H].
Qed.

End LegalTypeFacts.

(** X12. [get_all_by_no_tax_id] returns the businesses of the table that
    have no tax id and whose legal type is a member of [LegalTypes] other
    than [COOP], and no other business: never a cooperative, and never a
    business whose legal type is missing or is no member.  An error of the
    database is raised to the caller. *)
Theorem get_all_by_no_tax_id_spec (db : Database) :
  (forall e : failure,
      outage db = Some e -> get_all_by_no_tax_id db = Failed e)
  /\ (outage db = None ->
      exists rows : list Business,
        get_all_by_no_tax_id db = Returned rows
        /\ forall b : Business,
            In b rows <->
            In b (businesses db)
            /\ tax_id b = None
            /\ exists l : LegalTypes.t,
                l <> LegalTypes.COOP
                /\ legal_type b = Some (LegalTypes.value l)).
Proof.
  unfold get_all_by_no_tax_id. cbv zeta. rewrite tax_id_types_value.
  unfold all. split.
  - now intros e ->.
  - intros ->. eexists. split; [reflexivity | ].
    intros b. rewrite !filter_In, column_in_values. split.
    + intros ((Hin & l & Hl & Htype) & Hnull).
      apply members_but_coop in Hl. apply is_null_none in Hnull. eauto.
    + intros (Hin & Hnull & l & Hl & Htype).
      apply members_but_coop in Hl.
      unfold is_null. rewrite Hnull. eauto.
Qed.

Lemma get_all_by_no_tax_id_spec_witness :
  exists rows : list Business,
    get_all_by_no_tax_id
      (mkDatabase None [business_of "CP" (midnight 2000 1 1);
                        business_of "BEN" (midnight 2020 2 29)])
    = Returned rows
    /\ forall b : Business,
        In b rows <->
        In b [business_of "CP" (midnight 2000 1 1);
              business_of "BEN" (midnight 2020 2 29)]
        /\ tax_id b = None
        /\ exists l : LegalTypes.t,
            l <> LegalTypes.COOP
            /\ legal_type b = Some (LegalTypes.value l).
Proof.
  apply (proj2 (get_all_by_no_tax_id_spec
                  (mkDatabase None [business_of "CP" (midnight 2000 1 1);
                                    business_of "BEN" (midnight 2020 2 29)]))).
  reflexivity.
Defined.

Section FilingFacts.

Variable Filing : Type.
Variable Filing_id : Filing -> option Z.
Variable Filing_business_id : Filing -> option Z.

(** X13. The filing [get_filing_by_id] returns is a filing of the table
    with the id asked for, and it belongs to a business of the table that
    bears the identifier asked for. *)
Theorem get_filing_by_id_spec
        (db : Database) (filings : list Filing)
        (business_identifier : string) (filing_id : Z) (f : Filing) :
  get_filing_by_id Filing Filing_id Filing_business_id db filings
                   business_identifier filing_id
  = Returned (Some f) ->
  In f filings
  /\ Filing_id f = Some filing_id
  /\ exists b : Business,
      In b (businesses db)
      /\ _identifier b = Some business_identifier
      /\ id b <> None
      /\ Filing_business_id f = id b.
Proof.
  unfold get_filing_by_id.
  destruct (one_or_none db _) as [[[b f0] | ] | e] eqn:Hrun;
    try discriminate.
  cbn [snd]. intros [= ->].
  apply one_or_none_some in Hrun. destruct Hrun as [_ Hrows].
  apply in_singleton_filter in Hrows. destruct Hrows as [Hrows Hid].
  apply filter_In in Hrows. destruct Hrows as [Hrows Hident].
  apply filter_In in Hrows. destruct Hrows as [Hrows Hjoin].
  apply in_prod_iff in Hrows. destruct Hrows as [Hb Hf].
  cbn [fst snd] in *.
  apply column_eq_true in Hident.
  unfold column_eqZ in Hid. destruct (Filing_id f) as [n | ];
    [ | discriminate].
  apply Z.eqb_eq in Hid. subst n.
  unfold columns_eqZ in Hjoin.
  destruct (id b) as [n | ] eqn:Hidb; [ | discriminate].
  destruct (Filing_business_id f) as [m | ]; [ | discriminate].
  apply Z.eqb_eq in Hjoin. subst m.
  conjuncts; auto. exists b. rewrite Hident, Hidb.
  conjuncts; auto. discriminate.
Qed.

End FilingFacts.

Lemma get_filing_by_id_spec_witness :
  In (Some 7, Some 1) [(Some 7, Some 1); (Some 8, Some 2)]
  /\ fst (Some 7, Some 1) = Some 7
  /\ exists b : Business,
      In b (businesses
              (mkDatabase None
                 [mkBusiness (Some 1) None None None None None None None
                             None None None (Some "CP1234567") None None
                             None None None None]))
      /\ _identifier b = Some "CP1234567"
      /\ id b <> None
      /\ snd (Some 7, Some 1) = id b.
Proof.
  apply (get_filing_by_id_spec
           (option Z * option Z) fst snd
           (mkDatabase None
              [mkBusiness (Some 1) None None None None None None None
                          None None None (Some "CP1234567") None None
                          None None None None])
           [(Some 7, Some 1); (Some 8, Some 2)] "CP1234567" 7).
  reflexivity.
Defined.

(** ** The JSON projection of a business *)

Import Json.

(** Takes a call of [json] that is a hypothesis apart, one step of the
    method after the other. *)
Ltac json_steps H :=
  unfold json, bind, lift, ret in H;
  repeat match type of H with
         | context [match ?x with _ => _ end] =>
             let E := fresh "E" in destruct x eqn:E; try discriminate H
         | context [if ?x then _ else _] =>
             let E := fresh "E" in destruct x eqn:E; try discriminate H
         end.

Lemma attribute_of_ok {A : Type} (column : option A) (a : A) :
  attribute_of column = Ok a -> column = Some a.
Proof. destruct column; [now intros [= ->] | discriminate]. Qed.

Section JsonFacts.

Variable legislation_utc : datetime -> datetime.

(** X14. The dictionary [json] returns has the thirteen keys from
    [foundingDate] to [arMaxDate], then [dissolutionDate] exactly when the
    business has a dissolution date, [fiscalYearEndDate] exactly when it
    has a fiscal year end, and [taxId] exactly when its tax id is set and
    not empty. *)
Theorem json_keys (self : Business) (w w' : World) (d : dict) :
  json legislation_utc self w = (Ok d, w') ->
  keys d
  = (json_base_keys
     ++ (if truthy (dissolution_date self) then ["dissolutionDate"] else [])
     ++ (if truthy (fiscal_year_end_date self)
         then ["fiscalYearEndDate"] else [])
     ++ (if Query.str_truthy (tax_id self) then ["taxId"] else []))%list.
Proof.
  intros H. json_steps H; inversion H; subst; reflexivity.
Qed.


(** X15. [json] raises for a business without a founding date, without a
    last-modified time or without a last-ledger timestamp, as a business
    that was never stored is. *)
Theorem json_raises_on_missing_timestamps (self : Business) (w : World) :
  founding_date self = None
  \/ last_modified self = None
  \/ last_ledger_timestamp self = None ->
  raises (fst (json legislation_utc self w)).
Proof.
  intros Hmissing.
  destruct (json legislation_utc self w) as [[d | e] w'] eqn:H;
    [ | eexists; reflexivity].
  exfalso. json_steps H; clear H;
    destruct Hmissing as [Hm | [Hm | Hm]];
    rewrite Hm in *; cbn [attribute_of rbind] in *; discriminate.
Qed.

(** X16. What [json] reports is what the other methods compute: the window
    of [get_ar_dates] for the year after the last annual-report year, or
    after the founding year when that year is missing or 0; then the
    [good_standing] of the business, read from the clock after the window;
    the stored identifier; and the [next_anniversary].  The call leaves the
    database session alone. *)
Theorem json_composes (self : Business) (w w' : World) (d : dict) :
  json legislation_utc self w = (Ok d, w') ->
  exists (y : Z) (mn mx : date) (w1 : World) (standing : bool)
         (anniversary : datetime),
    ((Query.int_truthy (last_ar_year self) = true
      /\ last_ar_year self = Some y)
     \/ (Query.int_truthy (last_ar_year self) = false
         /\ exists founded, founding_date self = Some founded
                            /\ y = year (to_date founded)))
    /\ get_ar_dates self (y + 1) w = (Ok (mn, mx), w1)
    /\ good_standing self w1 = (Ok standing, w')
    /\ next_anniversary self = Ok anniversary
    /\ dict_get d "arMinDate" = Some (Str (date_isoformat mn))
    /\ dict_get d "arMaxDate" = Some (Str (date_isoformat mx))
    /\ dict_get d "goodStanding" = Some (Bool standing)
    /\ dict_get d "identifier" = Some (of_str (identifier self))
    /\ dict_get d "nextAnnualReport"
       = Some (Str (datetime_isoformat (legislation_utc anniversary)))
    /\ session_log w' = session_log w.
Proof.
  intros H.
  assert (Hlog : forall (y : Z) (r : date * date) (w1 : World) (b : bool),
             get_ar_dates self y w = (Ok r, w1) ->
             good_standing self w1 = (Ok b, w') ->
             session_log w' = session_log w).
  { intros y [mn mx] w1 b Hwin Hgs.
    assert (Hl : session_log w1 = session_log w).
    { apply get_ar_dates_returned in Hwin.
      destruct Hwin as (mx0 & _ & [(_ & _ & ->) | (_ & _ & ->)]);
        reflexivity. }
    rewrite <- Hl.
    rewrite good_standing_unfold in Hgs.
    destruct (last_ar_date_or_founding_date self); [ | discriminate Hgs].
    destruct (datetime_add _ grace_period); [ | discriminate Hgs].
    now inversion Hgs. }
  json_steps H; inversion H; subst;
    match goal with
    | Ew : get_ar_dates self (?y + 1) w = (Ok (?mn, ?mx), ?w1),
      Eg : good_standing self ?w1 = (Ok ?b, w'),
      Ea : next_anniversary self = Ok ?a |- _ =>
        exists y, mn, mx, w1, b, a;
        pose proof (Hlog _ _ _ _ Ew Eg)
    end;
    conjuncts; try reflexivity; try assumption;
    match goal with
    | E : (if Query.int_truthy _ then _ else _) = Ok _ |- _ =>
        destruct (Query.int_truthy (last_ar_year self)) eqn:Et;
        [left; split; [reflexivity | now apply attribute_of_ok]
        | right; split; [reflexivity | ];
          cbn [rbind] in E; inversion E;
          eexists; split; [apply attribute_of_ok; eassumption | reflexivity]]
    end.
Qed.

End JsonFacts.

Lemma json_keys_witness :
  keys [("foundingDate", Str "2019-03-15T00:00:00+00:00");
        ("identifier", Str "BC1234567");
        ("lastModified", Str "2021-01-02T00:00:00+00:00");
        ("lastAnnualReport", Str "");
        ("nextAnnualReport", Str "2020-03-15T00:00:00+00:00");
        ("lastAnnualGeneralMeetingDate", Str "");
        ("lastLedgerTimestamp", Str "2021-01-03T00:00:00+00:00");
        ("legalName", Str "ACME"); ("legalType", Str "BEN");
        ("hasRestrictions", Bool false); ("goodStanding", Bool false);
        ("arMinDate", Str "2021-03-15"); ("arMaxDate", Str "2021-05-14")]
  = (json_base_keys ++ [] ++ [] ++ [])%list.
Proof.
  apply (json_keys
           (fun d => d)
           (mkBusiness (Some 1) (Some (midnight 2021 1 2)) None None
                       (Some (midnight 2021 1 3)) None None (Some "ACME")
                       (Some "BEN") (Some (midnight 2019 3 15)) None
                       (Some "BC1234567") (Some "") None (Some false)
                       (Some 2020) None None)
           (world_at (midnight 2026 11 4))
           (mkWorld (fun _ => midnight 2026 11 4) 2 [])).
  reflexivity.
Defined.

Lemma json_raises_on_missing_timestamps_witness :
  raises (fst (json (fun d => d) blank_business
                    (world_at (midnight 2026 11 4)))).
Proof.
  apply (json_raises_on_missing_timestamps
           (fun d => d) blank_business (world_at (midnight 2026 11 4))).
  left. reflexivity.
Defined.

Lemma json_composes_witness :
  exists (y : Z) (mn mx : date) (w1 : World) (standing : bool)
         (anniversary : datetime),
    ((Query.int_truthy (last_ar_year stored_business) = true
      /\ last_ar_year stored_business = Some y)
     \/ (Query.int_truthy (last_ar_year stored_business) = false
         /\ exists founded,
             founding_date stored_business = Some founded
             /\ y = year (to_date founded)))
    /\ get_ar_dates stored_business (y + 1) (world_at (midnight 2026 11 4))
       = (Ok (mn, mx), w1)
    /\ good_standing stored_business w1
       = (Ok standing, mkWorld (fun _ => midnight 2026 11 4) 3 [])
    /\ next_anniversary stored_business = Ok anniversary
    /\ dict_get stored_business_json "arMinDate"
       = Some (Str (date_isoformat mn))
    /\ dict_get stored_business_json "arMaxDate"
       = Some (Str (date_isoformat mx))
    /\ dict_get stored_business_json "goodStanding" = Some (Bool standing)
    /\ dict_get stored_business_json "identifier"
       = Some (of_str (identifier stored_business))
    /\ dict_get stored_business_json "nextAnnualReport"
       = Some (Str (datetime_isoformat ((fun d => d) anniversary)))
    /\ session_log (mkWorld (fun _ => midnight 2026 11 4) 3 [])
       = session_log (world_at (midnight 2026 11 4)).
Proof.
  apply (json_composes (fun d => d) stored_business
                       (world_at (midnight 2026 11 4))
                       (mkWorld (fun _ => midnight 2026 11 4) 3 [])
                       stored_business_json).
  reflexivity.
Defined.

(** ** Storing an identifier and looking it up *)

Lemma filter_none {A : Type} (f : A -> bool) (l : list A) :
  (forall x, In x l -> f x = false) -> filter f l = [].
Proof.
  induction l as [ | x l IH]; intros H; cbn; [reflexivity | ].
  rewrite (H x (or_introl eq_refl)). apply IH.
  intros y Hy. apply H. now right.
Qed.

Lemma column_eq_false (column : option string) (literal : string) :
  column <> Some literal -> column_eq column literal = false.
Proof.
  intros H. destruct (column_eq column literal) eqn:E; [ | reflexivity].
  apply column_eq_true in E. contradiction.
Qed.

(** X17. A business whose identifier was assigned through the setter is
    found again by [find_by_identifier] under that identifier, when the
    database answers and no other row of the table bears the identifier. *)
Theorem find_by_identifier_round_trip
        (before after : list Business) (self : Business) (value : string) :
  validate_identifier value = true ->
  (forall b : Business,
      In b (before ++ after) -> _identifier b <> Some value) ->
  find_by_identifier
    (mkDatabase None (before ++ snd (identifier_setter value self) :: after))
    (Some value)
  = Returned (Some (set__identifier self value)).
Proof.
  intros Hvalid Hothers.
  rewrite identifier_setter_state, Hvalid.
  unfold find_by_identifier.
  assert (Htruthy : str_truthy (Some value) = true).
  { cbn. destruct (String.eqb_spec value ""); [ | reflexivity].
    subst value. discriminate Hvalid. }
  rewrite Htruthy. unfold one_or_none. cbn [outage businesses].
  rewrite filter_app. cbn [filter _identifier set__identifier column_eq].
  rewrite String.eqb_refl.
  rewrite !filter_none; [reflexivity | | ];
    intros b Hb; apply column_eq_false; apply Hothers; apply in_or_app; auto.
Qed.

Lemma find_by_identifier_round_trip_witness :
  find_by_identifier
    (mkDatabase None
       ([business_of "CP" (midnight 2000 1 1)]
        ++ snd (identifier_setter "BC1234567" blank_business) :: []))
    (Some "BC1234567")
  = Returned (Some (set__identifier blank_business "BC1234567")).
Proof.
  apply (find_by_identifier_round_trip
           [business_of "CP" (midnight 2000 1 1)] [] blank_business
           "BC1234567").
  - reflexivity.
  - intros b [<- | []]. discriminate.
Defined.

(** ** Deletion *)








